(** * Spotfire mods development server: CSP / CORS header policy

    A shallow embedding of [tools/mods-dev-server/development-server.js]:
    the module-level state ([declaredExternalResourcesInManifest],
    [allowedOrigins]), [startServer], [readExternalResourcesFromManifest] with
    its inner [readExternalResources], and the [cacheRedirect] middleware,
    together with the parts of the JavaScript runtime they rely on (JSON
    values and [JSON.parse], [Array.prototype.join], [Set], POSIX paths, a
    file tree). *)

From Stdlib Require Import ZArith.
From Stdlib Require Ascii String.
From stdpp Require Import gmap strings list pretty.

Local Open Scope Z_scope.

(** ** JavaScript numbers

    A Number is an IEEE 754 binary64 value.  A finite non-zero one is kept as
    [m * 2^e] with [2^52 <= m < 2^53] (normal) or [e = -1074] (subnormal). *)

Module Number.

Inductive t : Type :=
| Zero (neg : bool)
| Finite (neg : bool) (m : positive) (e : Z)
| Infinity (neg : bool)
| NaN.

#[global] Instance eq_dec : EqDecision t.
Proof. solve_decision. Defined.

(** [2^n <= P/Q] and [10^n <= P/Q] for [P, Q > 0], without leaving [Z]. *)
Definition le_pow (b n P Q : Z) : bool :=
  if 0 <=? n then b ^ n * Q <=? P else Q <=? P * b ^ (- n).

Definition floor_log2 (P Q : Z) : Z :=
  let l := Z.log2 P - Z.log2 Q in
  if le_pow 2 l P Q then l else l - 1.

(** Round the rational [P/Q] to the nearest binary64, ties to even. *)
Definition of_ratio (neg : bool) (P Q : Z) : t :=
  if P <=? 0 then Zero neg else
  let e := Z.max (floor_log2 P Q - 52) (-1074) in
  let num := if 0 <=? e then P else P * 2 ^ (- e) in
  let den := if 0 <=? e then Q * 2 ^ e else Q in
  let q := num / den in
  let r := num mod den in
  let q' := if (den <? 2 * r) || ((den =? 2 * r) && Z.odd q) then q + 1 else q in
  let '(m, e') := if q' =? 2 ^ 53 then (2 ^ 52, e + 1) else (q', e) in
  if m =? 0 then Zero neg
  else if 971 <? e' then Infinity neg
  else Finite neg (Z.to_pos m) e'.

(** The value of the decimal literal [m * 10^e10]. *)
Definition of_decimal (neg : bool) (m : Z) (e10 : Z) : t :=
  if 0 <=? e10 then of_ratio neg (m * 10 ^ e10) 1
  else of_ratio neg m (10 ^ (- e10)).

Definition is_zero_or_nan (x : t) : bool :=
  match x with Zero _ | NaN => true | _ => false end.

(** *** Number::toString (radix 10)

    [shortest] finds the digits [s], their count [k] and the decimal exponent
    [n] of the specification: [k] least such that [s * 10^(n-k)] reads back as
    the same Number, [s] closest to the exact value. *)

Definition decimal_exponent (P Q : Z) : Z :=
  let est := (Z.log2 P - Z.log2 Q) * 30103 / 100000 in
  let window := (λ i : nat, est - 2 + Z.of_nat i) <$> seq 0 6 in
  default (est + 3) (head (filter (λ n, le_pow 10 n P Q = false) window)).

Definition reads_back (m : positive) (e : Z) (c d : Z) : bool :=
  bool_decide (of_decimal false c d = Finite false m e).

Definition candidate (m : positive) (e : Z) (P Q n0 : Z) (k : Z) : option Z :=
  let d := k - n0 in
  let tn := if 0 <=? d then P * 10 ^ d else P in
  let td := if 0 <=? d then Q else Q * 10 ^ (- d) in
  let lo := tn / td in
  let r := tn mod td in
  let ok_lo := reads_back m e lo (- d) in
  let ok_hi := reads_back m e (lo + 1) (- d) in
  if ok_lo && ok_hi then
    Some (if 2 * r <? td then lo
          else if td <? 2 * r then lo + 1
          else if Z.even lo then lo else lo + 1)
  else if ok_lo then Some lo
  else if ok_hi then Some (lo + 1)
  else None.

Fixpoint strip_zeros_rev (ds : list Ascii.ascii) : list Ascii.ascii :=
  match ds with
  | c :: ds' => if bool_decide (c = Ascii.ascii_of_nat 48) then strip_zeros_rev ds' else ds
  | [] => []
  end.

Definition strip_trailing_zeros (s : string) : string :=
  String.string_of_list_ascii
    (rev (strip_zeros_rev (rev (String.list_ascii_of_string s)))).

Definition zeros (n : Z) : string :=
  String.string_of_list_ascii (replicate (Z.to_nat n) (Ascii.ascii_of_nat 48)).

(** Digits and decimal exponent [(ds, n)] of a positive finite Number. *)
Definition shortest (m : positive) (e : Z) : string * Z :=
  let P := if 0 <=? e then Z.pos m * 2 ^ e else Z.pos m in
  let Q := if 0 <=? e then 1 else 2 ^ (- e) in
  let n0 := decimal_exponent P Q in
  let ks := (λ i : nat, Z.of_nat i) <$> seq 1 17 in
  match head (omap (λ k, (λ c, (k, c)) <$> candidate m e P Q n0 k) ks) with
  | Some (k, c) =>
      let ds := pretty c in
      (strip_trailing_zeros ds, n0 + Z.of_nat (String.length ds) - k)
  | None => (pretty (Z.pos m), 0)
  end.

Definition format (ds : string) (n : Z) : string :=
  let k := Z.of_nat (String.length ds) in
  if (k <=? n) && (n <=? 21) then ds +:+ zeros (n - k)
  else if (0 <? n) && (n <=? 21) then
    String.substring 0 (Z.to_nat n) ds +:+ "." +:+
    String.substring (Z.to_nat n) (Z.to_nat (k - n)) ds
  else if (-6 <? n) && (n <=? 0) then "0." +:+ zeros (- n) +:+ ds
  else
    let e := n - 1 in
    let exponent := (if e <? 0 then "e-" else "e+") +:+ pretty (Z.abs e) in
    if k =? 1 then ds +:+ exponent
    else String.substring 0 1 ds +:+ "." +:+
         String.substring 1 (Z.to_nat (k - 1)) ds +:+ exponent.

Definition to_string (x : t) : string :=
  match x with
  | NaN => "NaN"
  | Zero _ => "0"
  | Infinity neg => (if neg then "-" else "") +:+ "Infinity"
  | Finite neg m e =>
      let '(ds, n) := shortest m e in
      (if neg then "-" else "") +:+ format ds n
  end.

End Number.

(** ** JavaScript values and errors *)

#[warnings="-register-all"]
Inductive JsValue : Type :=
| JUndefined
| JNull
| JBool (b : bool)
| JNumber (x : Number.t)
| JString (s : string)
| JArray (elems : list JsValue)
| JObject (props : list (string * JsValue)).

(** What a [throw] carries: the runtime's error objects, and the plain string
    [startServer] throws. *)
Inductive JsError : Type :=
| SyntaxError
| TypeError (msg : string)
| SystemError (code : string) (path : string)
| ThrownString (s : string).

#[global] Instance JsError_eq_dec : EqDecision JsError.
Proof. solve_decision. Defined.

Inductive Completion (A : Type) : Type :=
| Normal (a : A)
| Throw (e : JsError).
Arguments Normal {A} a.
Arguments Throw {A} e.

(** ToBoolean. *)
Definition truthy (v : JsValue) : bool :=
  match v with
  | JUndefined | JNull => false
  | JBool b => b
  | JNumber x => negb (Number.is_zero_or_nan x)
  | JString s => negb (bool_decide (s = ""))
  | JArray _ | JObject _ => true
  end.

(** [a || b] on values. *)
Definition js_or (a b : JsValue) : JsValue := if truthy a then a else b.

(** The last binding of [name] wins, as [JSON.parse] builds objects. *)
Fixpoint own_property (name : string) (props : list (string * JsValue)) : option JsValue :=
  match props with
  | [] => None
  | (k, v) :: rest =>
      match own_property name rest with
      | Some v' => Some v'
      | None => if bool_decide (k = name) then Some v else None
      end
  end.

(** [v.name] for a [name] that no built-in prototype defines (such as
    [externalResources]) and that is neither [length] nor an index. *)
Definition get_property (v : JsValue) (name : string) : Completion JsValue :=
  match v with
  | JUndefined | JNull => Throw (TypeError "Cannot read properties of null or undefined")
  | JObject props => Normal (default JUndefined (own_property name props))
  | _ => Normal JUndefined
  end.

(** ** Strings

    A JavaScript string is kept as the UTF-8 bytes of its text (a lone
    surrogate as its three-byte form), which is also how file content and
    header values arrive. *)

Definition code (c : Ascii.ascii) : Z := Z.of_N (Ascii.N_of_ascii c).
Definition chr (z : Z) : Ascii.ascii := Ascii.ascii_of_N (Z.to_N z).

Definition utf8 (cp : Z) : list Ascii.ascii :=
  if cp <? 128 then [chr cp]
  else if cp <? 2048 then [chr (192 + cp / 64); chr (128 + cp mod 64)]
  else if cp <? 65536 then
    [chr (224 + cp / 4096); chr (128 + cp / 64 mod 64); chr (128 + cp mod 64)]
  else
    [chr (240 + cp / 262144); chr (128 + cp / 4096 mod 64);
     chr (128 + cp / 64 mod 64); chr (128 + cp mod 64)].

(** Number of bytes of the code point that starts with byte [c]. *)
Definition utf8_width (c : Ascii.ascii) : nat :=
  let b := code c in
  if b <? 192 then 1 else if b <? 224 then 2 else if b <? 240 then 3 else 4.

(** String iteration: one string per code point. *)
Fixpoint code_points_aux (n : nat) (cur : list Ascii.ascii) (cs : list Ascii.ascii)
  : list string :=
  match cs with
  | [] => match cur with [] => [] | _ => [String.string_of_list_ascii (rev cur)] end
  | c :: cs' =>
      match n with
      | S n' => code_points_aux n' (c :: cur) cs'
      | O =>
          match cur with
          | [] => code_points_aux (utf8_width c - 1) [c] cs'
          | _ => String.string_of_list_ascii (rev cur)
                 :: code_points_aux (utf8_width c - 1) [c] cs'
          end
      end
  end.

Definition code_points (s : string) : list string :=
  code_points_aux 0 [] (String.list_ascii_of_string s).

Fixpoint join (sep : string) (parts : list string) : string :=
  match parts with
  | [] => ""
  | [p] => p
  | p :: rest => p +:+ sep +:+ join sep rest
  end.

(** *** ToString and Array.prototype.join *)

Section Join.
Variable to_string : JsValue → Completion string.

(** The strings [join] puts between separators: [undefined] and [null]
    elements give the empty string, the others their ToString; the first
    element whose conversion throws ends the call. *)
Fixpoint element_strings (elems : list JsValue) : Completion (list string) :=
  match elems with
  | [] => Normal []
  | v :: rest =>
      match (match v with JUndefined | JNull => Normal "" | _ => to_string v end) with
      | Throw e => Throw e
      | Normal s =>
          match element_strings rest with
          | Throw e => Throw e
          | Normal ss => Normal (s :: ss)
          end
      end
  end.
End Join.

(** A plain object converts through [Object.prototype.toString] unless an own
    [toString] property (never callable in parsed JSON) shadows it, in which
    case no primitive is found. *)
Fixpoint ToString (v : JsValue) : Completion string :=
  match v with
  | JUndefined => Normal "undefined"
  | JNull => Normal "null"
  | JBool b => Normal (if b then "true" else "false")
  | JNumber x => Normal (Number.to_string x)
  | JString s => Normal s
  | JArray elems =>
      match element_strings ToString elems with
      | Throw e => Throw e
      | Normal ss => Normal (join "," ss)
      end
  | JObject props =>
      match own_property "toString" props with
      | Some _ => Throw (TypeError "Cannot convert object to primitive value")
      | None => Normal "[object Object]"
      end
  end.

(** [elems.join(sep)]. *)
Definition Array_join (sep : string) (elems : list JsValue) : Completion string :=
  match element_strings ToString elems with
  | Throw e => Throw e
  | Normal ss => Normal (join sep ss)
  end.

(** What the spread [...v] contributes to an array literal. *)
Definition spread (v : JsValue) : Completion (list JsValue) :=
  match v with
  | JArray elems => Normal elems
  | JString s => Normal (JString <$> code_points s)
  | _ => Throw (TypeError "value is not iterable")
  end.

(** ** JSON.parse

    The JSON grammar as two machines that each consume one symbol per step: a
    lexer over the characters and a parser with an explicit stack over the
    tokens.  [None] is the [SyntaxError]. *)

Module JSON.

Inductive token : Type :=
| TLBrace | TRBrace | TLBracket | TRBracket | TColon | TComma
| TLiteral (v : JsValue)
| TNumber (x : Number.t)
| TString (s : string).

Inductive num_state : Type :=
| NMinus | NZero | NInt | NDot | NFrac | NE | NESign | NExp.

Record num_acc : Type := mk_num {
  num_neg : bool;      (* a leading minus sign was read *)
  num_mant : Z;        (* the digits of the integer and fraction parts *)
  num_frac : Z;        (* how many of them follow the point *)
  num_eneg : bool;     (* the exponent has a minus sign *)
  num_exp : Z          (* the digits of the exponent *)
}.

Inductive lex_state : Type :=
| LTop
| LWord (rest : list Ascii.ascii) (tok : token)
| LNum (st : num_state) (a : num_acc)
| LStr (acc : list Ascii.ascii) (hi : option Z)
| LEsc (acc : list Ascii.ascii) (hi : option Z)
| LHex (acc : list Ascii.ascii) (hi : option Z) (n : nat) (v : Z).

Definition is_digit (c : Ascii.ascii) : bool := (48 <=? code c) && (code c <=? 57).
Definition digit (c : Ascii.ascii) : Z := code c - 48.
Definition is_ws (c : Ascii.ascii) : bool :=
  let b := code c in (b =? 32) || (b =? 9) || (b =? 10) || (b =? 13).

Definition hex_digit (c : Ascii.ascii) : option Z :=
  let b := code c in
  if (48 <=? b) && (b <=? 57) then Some (b - 48)
  else if (65 <=? b) && (b <=? 70) then Some (b - 55)
  else if (97 <=? b) && (b <=? 102) then Some (b - 87)
  else None.

Definition chars (s : string) : list Ascii.ascii := String.list_ascii_of_string s.

Definition lex_top (c : Ascii.ascii) : option (list token * lex_state) :=
  let b := code c in
  if is_ws c then Some ([], LTop)
  else if b =? 123 then Some ([TLBrace], LTop)
  else if b =? 125 then Some ([TRBrace], LTop)
  else if b =? 91 then Some ([TLBracket], LTop)
  else if b =? 93 then Some ([TRBracket], LTop)
  else if b =? 58 then Some ([TColon], LTop)
  else if b =? 44 then Some ([TComma], LTop)
  else if b =? 34 then Some ([], LStr [] None)
  else if b =? 45 then Some ([], LNum NMinus (mk_num true 0 0 false 0))
  else if b =? 48 then Some ([], LNum NZero (mk_num false 0 0 false 0))
  else if is_digit c then Some ([], LNum NInt (mk_num false (digit c) 0 false 0))
  else if b =? 110 then Some ([], LWord (chars "ull") (TLiteral JNull))
  else if b =? 116 then Some ([], LWord (chars "rue") (TLiteral (JBool true)))
  else if b =? 102 then Some ([], LWord (chars "alse") (TLiteral (JBool false)))
  else None.

Definition num_value (a : num_acc) : Number.t :=
  Number.of_decimal (num_neg a) (num_mant a)
    ((if num_eneg a then - num_exp a else num_exp a) - num_frac a).

Definition accepting (st : num_state) : bool :=
  match st with NZero | NInt | NFrac | NExp => true | _ => false end.

Definition push_int (a : num_acc) (c : Ascii.ascii) : num_acc :=
  mk_num (num_neg a) (num_mant a * 10 + digit c) (num_frac a) (num_eneg a) (num_exp a).
Definition push_frac (a : num_acc) (c : Ascii.ascii) : num_acc :=
  mk_num (num_neg a) (num_mant a * 10 + digit c) (num_frac a + 1) (num_eneg a) (num_exp a).
Definition push_exp (a : num_acc) (c : Ascii.ascii) : num_acc :=
  mk_num (num_neg a) (num_mant a) (num_frac a) (num_eneg a) (num_exp a * 10 + digit c).
Definition neg_exp (a : num_acc) : num_acc :=
  mk_num (num_neg a) (num_mant a) (num_frac a) true (num_exp a).

(** [None]: the number does not continue with [c]. *)
Definition num_step (st : num_state) (a : num_acc) (c : Ascii.ascii)
  : option (num_state * num_acc) :=
  let b := code c in
  let is_e := (b =? 101) || (b =? 69) in
  match st with
  | NMinus => if b =? 48 then Some (NZero, a)
              else if is_digit c then Some (NInt, push_int a c) else None
  | NZero => if b =? 46 then Some (NDot, a) else if is_e then Some (NE, a) else None
  | NInt => if is_digit c then Some (NInt, push_int a c)
            else if b =? 46 then Some (NDot, a) else if is_e then Some (NE, a) else None
  | NDot => if is_digit c then Some (NFrac, push_frac a c) else None
  | NFrac => if is_digit c then Some (NFrac, push_frac a c)
             else if is_e then Some (NE, a) else None
  | NE => if b =? 43 then Some (NESign, a)
          else if b =? 45 then Some (NESign, neg_exp a)
          else if is_digit c then Some (NExp, push_exp a c) else None
  | NESign => if is_digit c then Some (NExp, push_exp a c) else None
  | NExp => if is_digit c then Some (NExp, push_exp a c) else None
  end.

(** A high surrogate from a [\u] escape waits in [hi] for its low half. *)
Definition flush (hi : option Z) (acc : list Ascii.ascii) : list Ascii.ascii :=
  match hi with Some h => rev (utf8 h) ++ acc | None => acc end.

Definition push_unit (acc : list Ascii.ascii) (hi : option Z) (u : Z) : lex_state :=
  let low := (56320 <=? u) && (u <=? 57343) in
  let high := (55296 <=? u) && (u <=? 56319) in
  match hi with
  | Some h =>
      if low then LStr (rev (utf8 (65536 + (h - 55296) * 1024 + (u - 56320))) ++ acc) None
      else if high then LStr (flush hi acc) (Some u)
      else LStr (rev (utf8 u) ++ flush hi acc) None
  | None =>
      if high then LStr acc (Some u) else LStr (rev (utf8 u) ++ acc) None
  end.

Definition escape (c : Ascii.ascii) : option Ascii.ascii :=
  let b := code c in
  if (b =? 34) || (b =? 92) || (b =? 47) then Some c
  else if b =? 98 then Some (chr 8)
  else if b =? 102 then Some (chr 12)
  else if b =? 110 then Some (chr 10)
  else if b =? 114 then Some (chr 13)
  else if b =? 116 then Some (chr 9)
  else None.

Definition lex_step (st : lex_state) (c : Ascii.ascii) : option (list token * lex_state) :=
  match st with
  | LTop => lex_top c
  | LWord rest tok =>
      match rest with
      | r :: rest' =>
          if bool_decide (c = r)
          then Some (match rest' with [] => ([tok], LTop) | _ => ([], LWord rest' tok) end)
          else None
      | [] => None
      end
  | LNum ns a =>
      match num_step ns a c with
      | Some (ns', a') => Some ([], LNum ns' a')
      | None =>
          if accepting ns then
            '(toks, st') ← lex_top c; Some (TNumber (num_value a) :: toks, st')
          else None
      end
  | LStr acc hi =>
      let b := code c in
      if b =? 34 then Some ([TString (String.string_of_list_ascii (rev (flush hi acc)))], LTop)
      else if b =? 92 then Some ([], LEsc acc hi)
      else if b <? 32 then None
      else Some ([], LStr (c :: flush hi acc) None)
  | LEsc acc hi =>
      if code c =? 117 then Some ([], LHex acc hi 4 0)
      else e ← escape c; Some ([], LStr (e :: flush hi acc) None)
  | LHex acc hi n v =>
      d ← hex_digit c;
      match n with
      | 1%nat => Some ([], push_unit acc hi (v * 16 + d))
      | _ => Some ([], LHex acc hi (n - 1) (v * 16 + d))
      end
  end.

Fixpoint lex (st : lex_state) (cs : list Ascii.ascii) : option (list token) :=
  match cs with
  | [] =>
      match st with
      | LTop => Some []
      | LNum ns a => if accepting ns then Some [TNumber (num_value a)] else None
      | _ => None
      end
  | c :: cs' =>
      '(toks, st') ← lex_step st c;
      rest ← lex st' cs';
      Some (toks ++ rest)
  end.

(** The containers still open, innermost first. *)
Inductive frame : Type :=
| FArray (acc : list JsValue)
| FObject (props : list (string * JsValue)) (key : string).

Inductive parse_state : Type :=
| PValue (stk : list frame)
| PArrayStart (stk : list frame)
| PObjectStart (stk : list frame)
| PKey (props : list (string * JsValue)) (stk : list frame)
| PColon (props : list (string * JsValue)) (key : string) (stk : list frame)
| PAfterElement (acc : list JsValue) (stk : list frame)
| PAfterMember (props : list (string * JsValue)) (stk : list frame)
| PDone (v : JsValue).

(** A complete value [v] goes to the innermost open container. *)
Definition reduce (v : JsValue) (stk : list frame) : parse_state :=
  match stk with
  | [] => PDone v
  | FArray acc :: stk' => PAfterElement (v :: acc) stk'
  | FObject props key :: stk' => PAfterMember ((key, v) :: props) stk'
  end.

Definition parse_value (stk : list frame) (t : token) : option parse_state :=
  match t with
  | TLiteral v => Some (reduce v stk)
  | TNumber x => Some (reduce (JNumber x) stk)
  | TString s => Some (reduce (JString s) stk)
  | TLBracket => Some (PArrayStart stk)
  | TLBrace => Some (PObjectStart stk)
  | _ => None
  end.

Definition parse_step (st : parse_state) (t : token) : option parse_state :=
  match st with
  | PValue stk => parse_value stk t
  | PArrayStart stk =>
      match t with
      | TRBracket => Some (reduce (JArray []) stk)
      | _ => parse_value (FArray [] :: stk) t
      end
  | PObjectStart stk =>
      match t with
      | TRBrace => Some (reduce (JObject []) stk)
      | TString k => Some (PColon [] k stk)
      | _ => None
      end
  | PKey props stk =>
      match t with TString k => Some (PColon props k stk) | _ => None end
  | PColon props k stk =>
      match t with TColon => Some (PValue (FObject props k :: stk)) | _ => None end
  | PAfterElement acc stk =>
      match t with
      | TComma => Some (PValue (FArray acc :: stk))
      | TRBracket => Some (reduce (JArray (rev acc)) stk)
      | _ => None
      end
  | PAfterMember props stk =>
      match t with
      | TComma => Some (PKey props stk)
      | TRBrace => Some (reduce (JObject (rev props)) stk)
      | _ => None
      end
  | PDone _ => None
  end.

Fixpoint parse_tokens (st : parse_state) (ts : list token) : option JsValue :=
  match ts with
  | [] => match st with PDone v => Some v | _ => None end
  | t :: ts' => st' ← parse_step st t; parse_tokens st' ts'
  end.

(** [JSON.parse(text)]: the parsed value, or [None] for a [SyntaxError]. *)
Definition parse (text : string) : option JsValue :=
  ts ← lex LTop (chars text); parse_tokens (PValue []) ts.

End JSON.

(** ** POSIX paths ([path.resolve], [path.join]) *)

Module Path.

Fixpoint split_aux (cur : list Ascii.ascii) (cs : list Ascii.ascii) : list string :=
  match cs with
  | [] => [String.string_of_list_ascii (rev cur)]
  | c :: cs' =>
      if code c =? 47 then String.string_of_list_ascii (rev cur) :: split_aux [] cs'
      else split_aux (c :: cur) cs'
  end.

(** The segments between slashes, empty ones included. *)
Definition split (p : string) : list string :=
  split_aux [] (String.list_ascii_of_string p).

Definition is_absolute (p : string) : bool :=
  match p with String.String c _ => code c =? 47 | _ => false end.

Definition ends_with_slash (p : string) : bool :=
  match last (String.list_ascii_of_string p) with
  | Some c => code c =? 47
  | None => false
  end.

(** One segment onto the stack of segments kept so far (innermost first). *)
Definition push_segment (allow_above_root : bool) (stack : list string) (seg : string)
  : list string :=
  if bool_decide (seg = "") || bool_decide (seg = ".") then stack
  else if bool_decide (seg = "..") then
    match stack with
    | top :: below => if bool_decide (top = "..") then seg :: stack else below
    | [] => if allow_above_root then [seg] else []
    end
  else seg :: stack.

Definition normalize_string (allow_above_root : bool) (p : string) : string :=
  join "/" (rev (foldl (push_segment allow_above_root) [] (split p))).

Definition normalize (p : string) : string :=
  if bool_decide (p = "") then "."
  else
    let body := normalize_string (negb (is_absolute p)) p in
    if bool_decide (body = "") then
      if is_absolute p then "/" else if ends_with_slash p then "./" else "."
    else
      let body := if ends_with_slash p then body +:+ "/" else body in
      if is_absolute p then "/" +:+ body else body.

(** [path.join(a, b)]. *)
Definition join2 (a b : string) : string :=
  if bool_decide (a = "") then normalize b
  else if bool_decide (b = "") then normalize a
  else normalize (a +:+ "/" +:+ b).

(** [path.resolve(p)] in a process whose working directory is [cwd]. *)
Definition resolve (cwd p : string) : string :=
  let full :=
    if bool_decide (p = "") then cwd
    else if is_absolute p then p
    else cwd +:+ "/" +:+ p in
  "/" +:+ normalize_string false full.

End Path.

(** ** The file tree

    A file holds its content as [readFileSync] with the utf-8 encoding
    returns it: text, already decoded. *)

#[warnings="-register-all"]
Inductive FsNode : Type :=
| File (content : string)
| Dir (entries : list (string * FsNode)).

Module Fs.

Definition entry (name : string) (entries : list (string * FsNode)) : option FsNode :=
  snd <$> find (λ e, bool_decide (e.1 = name)) entries.

(** The node at the end of [segs], or the error code of the failing step. *)
Fixpoint walk (segs : list string) (node : FsNode) : string + FsNode :=
  match segs with
  | [] => inr node
  | seg :: segs' =>
      match node with
      | File _ => inl "ENOTDIR"
      | Dir entries =>
          match entry seg entries with
          | Some child => walk segs' child
          | None => inl "ENOENT"
          end
      end
  end.

Definition segments (path : string) : list string :=
  filter (λ seg, seg ≠ "") (Path.split path).

Definition lookup (path : string) (root : FsNode) : string + FsNode :=
  walk (segments path) root.

Definition exists_ (path : string) (root : FsNode) : bool :=
  match lookup path root with inr _ => true | inl _ => false end.

Definition readdir (path : string) (root : FsNode) : Completion (list string) :=
  match lookup path root with
  | inr (Dir entries) => Normal (fst <$> entries)
  | inr (File _) => Throw (SystemError "ENOTDIR" path)
  | inl code => Throw (SystemError code path)
  end.

Definition readFile (path : string) (root : FsNode) : Completion string :=
  match lookup path root with
  | inr (File content) => Normal content
  | inr (Dir _) => Throw (SystemError "EISDIR" path)
  | inl code => Throw (SystemError code path)
  end.

End Fs.

(** ** The process

    [./server] (the live-server wrapper behind [devServer.start]) and the HTTP
    objects are collaborators of the module: their calls are recorded, in
    order, in [calls]. *)

(** A function held by the configuration. *)
Inductive Middleware : Type := cacheRedirect_ref.

Inductive ConfigValue : Type :=
| CValue (v : JsValue)
| CMiddleware (ms : list Middleware).

Inductive Call : Type :=
| FsExistsSync (path : string)
| FsReaddirSync (path : string)
| FsReadFileSync (path : string)
| FsWatch (path : string)
| DevServerStart (config : gmap string ConfigValue)
| ConsoleWarn (args : list string).

(** The response object: its header store, keyed by lower-cased name as
    [setHeader] and [getHeader] do. *)
Record ServerResponse : Type := mkResponse {
  res_headers : gmap string string
}.

Record Request : Type := mkRequest {
  req_method : string;
  req_headers : gmap string string
}.

Record World : Type := mkWorld {
  (* module-level variables *)
  declaredExternalResourcesInManifest : JsValue;
  allowedOrigins : list string;           (* a Set, in insertion order *)
  (* the environment of the process *)
  fs : FsNode;
  cwd : string;
  watchers : list string;                 (* paths whose fs.watch listener is readExternalResources *)
  calls : list Call;
  unhandledRejections : list JsError;
  (* the exchange being handled *)
  res : ServerResponse;
  nextCalls : nat
}.

Definition set_declared (v : JsValue) (w : World) : World :=
  mkWorld v (allowedOrigins w) (fs w) (cwd w) (watchers w) (calls w)
          (unhandledRejections w) (res w) (nextCalls w).
Definition set_allowedOrigins (s : list string) (w : World) : World :=
  mkWorld (declaredExternalResourcesInManifest w) s (fs w) (cwd w) (watchers w) (calls w)
          (unhandledRejections w) (res w) (nextCalls w).
Definition set_fs (t : FsNode) (w : World) : World :=
  mkWorld (declaredExternalResourcesInManifest w) (allowedOrigins w) t (cwd w) (watchers w)
          (calls w) (unhandledRejections w) (res w) (nextCalls w).
Definition set_watchers (ps : list string) (w : World) : World :=
  mkWorld (declaredExternalResourcesInManifest w) (allowedOrigins w) (fs w) (cwd w) ps
          (calls w) (unhandledRejections w) (res w) (nextCalls w).
Definition set_calls (cs : list Call) (w : World) : World :=
  mkWorld (declaredExternalResourcesInManifest w) (allowedOrigins w) (fs w) (cwd w)
          (watchers w) cs (unhandledRejections w) (res w) (nextCalls w).
Definition set_unhandledRejections (es : list JsError) (w : World) : World :=
  mkWorld (declaredExternalResourcesInManifest w) (allowedOrigins w) (fs w) (cwd w)
          (watchers w) (calls w) es (res w) (nextCalls w).
Definition set_res (r : ServerResponse) (w : World) : World :=
  mkWorld (declaredExternalResourcesInManifest w) (allowedOrigins w) (fs w) (cwd w)
          (watchers w) (calls w) (unhandledRejections w) r (nextCalls w).
Definition set_nextCalls (n : nat) (w : World) : World :=
  mkWorld (declaredExternalResourcesInManifest w) (allowedOrigins w) (fs w) (cwd w)
          (watchers w) (calls w) (unhandledRejections w) (res w) n.

(** *** Statements: state and exceptions *)

Definition M (A : Type) : Type := World → Completion A * World.

#[global] Instance M_ret : MRet M := λ A a w, (Normal a, w).
#[global] Instance M_bind : MBind M := λ A B k m w,
  match m w with
  | (Normal a, w') => k a w'
  | (Throw e, w') => (Throw e, w')
  end.

Definition throw {A} (e : JsError) : M A := λ w, (Throw e, w).
Definition lift {A} (c : Completion A) : M A := λ w, (c, w).
Definition gets {A} (f : World → A) : M A := λ w, (Normal (f w), w).
Definition modify (f : World → World) : M () := λ w, (Normal (), f w).
Definition record_call (c : Call) : M () := modify (λ w, set_calls (calls w ++ [c]) w).

(** [try { body } catch (err) { handler }]. *)
Definition try_catch {A} (body : M A) (handler : JsError → M A) : M A := λ w,
  match body w with
  | (Normal a, w') => (Normal a, w')
  | (Throw e, w') => handler e w'
  end.

(** The state of the promise an [async] function returns.  Its body has no
    [await]: it runs to its end during the call. *)
Inductive Promise : Type :=
| Fulfilled
| Rejected (reason : JsError).

Definition async (body : M ()) : M Promise := λ w,
  match body w with
  | (Normal _, w') => (Normal Fulfilled, w')
  | (Throw e, w') => (Normal (Rejected e), w')
  end.

(** A promise nobody keeps: a rejection has no handler. *)
Definition discard (p : Promise) : M () :=
  match p with
  | Fulfilled => mret ()
  | Rejected e => modify (λ w, set_unhandledRejections (unhandledRejections w ++ [e]) w)
  end.

(** *** The runtime calls of the module *)

Definition fs_existsSync (path : string) : M bool :=
  record_call (FsExistsSync path);; gets (λ w, Fs.exists_ path (fs w)).

Definition fs_readdirSync (path : string) : M (list string) :=
  record_call (FsReaddirSync path);; t ← gets fs; lift (Fs.readdir path t).

Definition fs_readFileSync (path : string) : M string :=
  record_call (FsReadFileSync path);; t ← gets fs; lift (Fs.readFile path t).

(** [fs.watch(path, {}, readExternalResources)]. *)
Definition fs_watch (path : string) : M () :=
  record_call (FsWatch path);;
  present ← gets (λ w, Fs.exists_ path (fs w));
  if present : bool then modify (λ w, set_watchers (watchers w ++ [path]) w)
  else throw (SystemError "ENOENT" path).

Definition path_resolve (p : option ConfigValue) : M string :=
  match p with
  | Some (CValue (JString p)) => dir ← gets cwd; mret (Path.resolve dir p)
  | _ => throw (TypeError "The path argument must be of type string")
  end.

Definition JSON_parse (text : string) : M JsValue :=
  match JSON.parse text with
  | Some v => mret v
  | None => throw SyntaxError
  end.

Definition console_warn (args : list string) : M () := record_call (ConsoleWarn args).

(** Modelled from the spec: [./server] is not part of the sources; the spec
    treats the static file server as an external collaborator that
    [startServer] starts with the merged configuration once the root directory
    exists.  Starting it (binding the port) is the recorded call. *)
Definition devServer_start (config : gmap string ConfigValue) : M () :=
  record_call (DevServerStart config).

Definition lower (c : Ascii.ascii) : Ascii.ascii :=
  if (65 <=? code c) && (code c <=? 90) then chr (code c + 32) else c.

Definition to_lower (s : string) : string :=
  String.string_of_list_ascii (lower <$> String.list_ascii_of_string s).

(** The header store: what [res.setHeader(name, value)] writes and
    [res.getHeader(name)] reads. *)
Definition setHeader (name value : string) (r : ServerResponse) : ServerResponse :=
  mkResponse (<[to_lower name := value]> (res_headers r)).
Definition getHeader (name : string) (r : ServerResponse) : option string :=
  res_headers r !! to_lower name.

(** The characters the response accepts in a header value: tab, U+0020 to
    U+007E and U+0080 to U+00FF.  In UTF-8 the last range is the two-byte
    forms led by C2 or C3; any code point above U+00FF has a lead byte above
    them. *)
Definition valid_header_char (c : Ascii.ascii) : bool :=
  let b := code c in
  (b =? 9) || ((32 <=? b) && (b <=? 126)) || ((128 <=? b) && (b <=? 195)).

Fixpoint valid_header_value (s : string) : bool :=
  match s with
  | String.EmptyString => true
  | String.String c s' => valid_header_char c && valid_header_value s'
  end.
Arguments valid_header_value : simpl never.

(** [res.setHeader(name, value)]: a value with a character outside that set
    is refused with a [TypeError] and the store is left alone.  (The names the
    module passes are fixed tokens.) *)
Definition res_setHeader (name value : string) : M () :=
  if valid_header_value value then
    modify (λ w, set_res (setHeader name value (res w)) w)
  else
    throw (TypeError ("Invalid character in header content [" +:+
                      String.String (chr 34) "" +:+ name +:+
                      String.String (chr 34) "" +:+ "]")).

Definition next : M () := modify (λ w, set_nextCalls (S (nextCalls w)) w).

(** [Set.prototype.add] on a set of strings. *)
Definition Set_add (x : string) (s : list string) : list string :=
  if bool_decide (x ∈ s) then s else s ++ [x].

(** [v != undefined] and [v != s] where [v] is a header value: a string, or
    [None] for [undefined]. *)
Definition ne_undefined (v : option string) : bool :=
  match v with Some _ => true | None => false end.
Definition ne_string (v : option string) (s : string) : bool :=
  match v with Some x => negb (bool_decide (x = s)) | None => true end.

(** [allowedOrigins.add(v)]; the call site is guarded by [v != undefined]. *)
Definition allowedOrigins_add (v : option string) : M () :=
  match v with
  | Some origin => modify (λ w, set_allowedOrigins (Set_add origin (allowedOrigins w)) w)
  | None => mret ()
  end.

(** ** The module *)

Definition manifestName : string := "mod-manifest.json".

Definition csp_prefix : string :=
  "sandbox allow-scripts; default-src 'self' 'unsafe-eval' 'unsafe-inline' blob: data: ".

Definition isCorsRequest (req : Request) : bool :=
  ne_undefined (req_headers req !! "origin").
Definition requestFromOutsideSandbox (req : Request) : bool :=
  ne_string (req_headers req !! "origin") "null".

(** Middleware to manage caching and CSP headers. *)
Definition cacheRedirect (req : Request) : M () :=
  (if isCorsRequest req && requestFromOutsideSandbox req then
     allowedOrigins_add (req_headers req !! "origin");;
     res_setHeader "Access-Control-Allow-Headers"
                   "Origin, X-Requested-With, Content-Type, Accept";;
     res_setHeader "Access-Control-Allow-Origin" "*"
   else mret ());;
  res_setHeader "Cache-Control" "no-store";;
  if negb (bool_decide (req_method req = "GET")) then next
  else
    origins ← gets allowedOrigins;
    declared ← gets declaredExternalResourcesInManifest;
    resources ← lift (spread declared);
    sources ← lift (Array_join " " ((JString <$> origins) ++ resources));
    res_setHeader "content-security-policy" (csp_prefix +:+ sources);;
    res_setHeader "x-content-security-policy" "sandbox allow-scripts";;
    next.

Definition defaultConfig : gmap string ConfigValue :=
  list_to_map [
    ("port", CValue (JNumber (Number.of_decimal false 8090 0)));
    ("noCssInject", CValue (JBool true));
    ("cors", CValue (JBool false));
    ("open", CValue (JString ("/" +:+ manifestName)));
    ("root", CValue (JString "./test/test-files/"));
    ("wait", CValue (JNumber (Number.of_decimal false 250 0)));
    ("middleware", CMiddleware [cacheRedirect_ref])
  ].

(** The inner [async function readExternalResources()] of
    [readExternalResourcesFromManifest], closed over [manifestPath]. *)
Definition readExternalResources (manifestPath : string) : M Promise :=
  async (
    content ← fs_readFileSync manifestPath;
    try_catch (
      json ← JSON_parse content;
      externalResources ← lift (get_property json "externalResources");
      modify (set_declared (js_or externalResources (JArray [])))
    ) (λ err, mret ())
  ).

(** [files.find((fileName) => fileName == manifestName)], as a condition. *)
Definition found (files : list string) : bool :=
  match find (λ fileName, bool_decide (fileName = manifestName)) files with
  | Some fileName => truthy (JString fileName)
  | None => false
  end.

(** Read external resources from the mod manifest placed in the root directory. *)
Definition readExternalResourcesFromManifest (rootDirectoryAbsolutePath : string) : M () :=
  files ← fs_readdirSync rootDirectoryAbsolutePath;
  if found files then
    let manifestPath := Path.join2 rootDirectoryAbsolutePath manifestName in
    (readExternalResources manifestPath ≫= discard);;
    fs_watch manifestPath
  else
    console_warn ["Could not find a mod-manifest.json in the root directory";
                  rootDirectoryAbsolutePath].

(** Start a live server with CSP policies mimicking the Spotfire Mod environment. *)
Definition startServer (partialConfig : gmap string ConfigValue) : M () :=
  let config := partialConfig ∪ defaultConfig in
  rootDirectoryAbsolutePath ← path_resolve (config !! "root");
  present ← fs_existsSync rootDirectoryAbsolutePath;
  if negb present then
    throw (ThrownString ("The path '" +:+ rootDirectoryAbsolutePath +:+ "' does not exist."))
  else
    readExternalResourcesFromManifest rootDirectoryAbsolutePath;;
    devServer_start config.

(** ** The life of the process after start-up *)

Inductive Event : Type :=
| RequestArrives (req : Request) (response : ServerResponse)
| FsChanges (tree : FsNode)
| WatchFires (i : nat).

Definition step (w : World) (ev : Event) : World :=
  match ev with
  | RequestArrives req response =>
      (cacheRedirect req (set_nextCalls 0 (set_res response w))).2
  | FsChanges tree => set_fs tree w
  | WatchFires i =>
      match watchers w !! i with
      | Some manifestPath => ((readExternalResources manifestPath ≫= discard) w).2
      | None => w
      end
  end.

Definition run (evs : list Event) (w : World) : World := foldl step w evs.

(** The module as loaded: nothing declared, no origin seen. *)
Definition loaded (tree : FsNode) (dir : string) : World :=
  mkWorld (JArray []) [] tree dir [] [] [] (mkResponse ∅) 0.

(** ** The middleware as a composition of its steps

    [cors_block] is the state after the conditional on the Origin header,
    [no_store] the state after the Cache-Control header. *)

Definition cors_block (req : Request) (w : World) : World :=
  match req_headers req !! "origin" with
  | Some origin =>
      if bool_decide (origin = "null") then w
      else
        set_res
          (setHeader "Access-Control-Allow-Origin" "*"
             (setHeader "Access-Control-Allow-Headers"
                "Origin, X-Requested-With, Content-Type, Accept" (res w)))
          (set_allowedOrigins (Set_add origin (allowedOrigins w)) w)
  | None => w
  end.

Definition no_store (w : World) : World :=
  set_res (setHeader "Cache-Control" "no-store" (res w)) w.

Definition csp_headers (sources : string) (w : World) : World :=
  set_res
    (setHeader "x-content-security-policy" "sandbox allow-scripts"
       (setHeader "content-security-policy" (csp_prefix +:+ sources) (res w))) w.

Definition call_next (w : World) : World := set_nextCalls (S (nextCalls w)) w.

(** ** Scenarios *)

Definition quote : string := String.String (chr 34) "".
Definition quoted (s : string) : string := quote +:+ s +:+ quote.

(** A manifest whose only field is [externalResources], with the given JSON
    text as its value. *)
Definition manifest_with (value : string) : string :=
  "{" +:+ quoted "externalResources" +:+ ": " +:+ value +:+ "}".

(** A disk with the project directory [/mod] holding the given manifest. *)
Definition project (manifest : string) : FsNode :=
  Dir [("mod", Dir [("mod-manifest.json", File manifest); ("index.html", File "<html>")])].

(** The same disk before any manifest is written. *)
Definition bare_project : FsNode :=
  Dir [("mod", Dir [("index.html", File "<html>")])].

Definition project_manifest : string := "/mod/mod-manifest.json".
Definition project_config : gmap string ConfigValue := {["root" := CValue (JString "./mod")]}.

(** The server started on a project that declares the single resource [a]. *)
Definition serving_a : World :=
  (startServer project_config (loaded (project (manifest_with ("[" +:+ quoted "a" +:+ "]"))) "/")).2.

(** ** The stand-alone run

    The module run as a script: [try { startServer({}) } catch (err)
    { console.warn(err); process.exit(1) }].  [warned] keeps the values handed
    to [console.warn] here, [exitCode] the argument of [process.exit] when it
    is reached. *)

Record Process : Type := mkProcess {
  world : World;
  warned : list JsError;
  exitCode : option Z
}.

Definition main (w : World) : Process :=
  match startServer ∅ w with
  | (Normal _, w') => mkProcess w' [] None
  | (Throw err, w') => mkProcess w' [err] (Some 1)
  end.

(** The allowed origins once a request with these headers has been handled. *)
Definition origins_after (req : Request) (origins : list string) : list string :=
  match req_headers req !! "origin" with
  | Some origin => if bool_decide (origin = "null") then origins else Set_add origin origins
  | None => origins
  end.

Definition is_watch (ev : Event) : bool :=
  match ev with WatchFires _ => true | _ => false end.

Definition is_start (c : Call) : bool :=
  match c with DevServerStart _ => true | _ => false end.

(** A project whose manifest holds [true] where the list should be, read once. *)
Definition declared_true : World :=
  (readExternalResources project_manifest (loaded (project (manifest_with "true")) "/")).2.

(** A disk where [mod-manifest.json] is a directory. *)
Definition manifest_is_directory : FsNode :=
  Dir [("mod", Dir [("mod-manifest.json", Dir [])])].

(** * Properties *)

(** ** Header store *)

Lemma getHeader_setHeader_eq name name' value r :
  to_lower name = to_lower name' →
  getHeader name (setHeader name' value r) = Some value.
Proof. intros E. unfold getHeader, setHeader. simpl. rewrite E. apply lookup_insert_eq. Qed.

Lemma getHeader_setHeader_ne name name' value r :
  to_lower name ≠ to_lower name' →
  getHeader name (setHeader name' value r) = getHeader name r.
Proof. intros E. unfold getHeader, setHeader. simpl. by apply lookup_insert_ne. Qed.

Ltac headers :=
  repeat first
    [ rewrite getHeader_setHeader_eq by (vm_compute; reflexivity)
    | rewrite getHeader_setHeader_ne by (vm_compute; discriminate) ].

(** The values the module sets under fixed names are accepted. *)
Lemma valid_allow_headers :
  valid_header_value "Origin, X-Requested-With, Content-Type, Accept" = true.
Proof. vm_compute. reflexivity. Qed.

Lemma valid_allow_origin : valid_header_value "*" = true.
Proof. vm_compute. reflexivity. Qed.

Lemma valid_no_store : valid_header_value "no-store" = true.
Proof. vm_compute. reflexivity. Qed.

Lemma valid_sandbox : valid_header_value "sandbox allow-scripts" = true.
Proof. vm_compute. reflexivity. Qed.

Lemma valid_csp_prefix : valid_header_value csp_prefix = true.
Proof. vm_compute. reflexivity. Qed.

Lemma valid_append a b :
  valid_header_value (a +:+ b) = valid_header_value a && valid_header_value b.
Proof.
  induction a as [|c a IH]; [reflexivity|].
  change (valid_header_value (String.String c a +:+ b))
    with (valid_header_char c && valid_header_value (a +:+ b)).
  change (valid_header_value (String.String c a))
    with (valid_header_char c && valid_header_value a).
  rewrite IH. by rewrite andb_assoc.
Qed.

Lemma valid_join (parts : list string) :
  Forall (λ part, valid_header_value part = true) parts →
  valid_header_value (join " " parts) = true.
Proof.
  induction 1 as [|part parts Hpart Hparts IH]; [reflexivity|].
  destruct parts as [|part' parts]; [exact Hpart|].
  change (join " " (part :: part' :: parts))
    with (part +:+ " " +:+ join " " (part' :: parts)).
  rewrite !valid_append, Hpart, IH. reflexivity.
Qed.

Ltac run_M :=
  repeat (progress (unfold mbind, M_bind, mret, M_ret, res_setHeader, next, modify, gets,
                    lift, throw, allowedOrigins_add, record_call; simpl;
                    rewrite ?valid_allow_headers, ?valid_allow_origin, ?valid_no_store,
                      ?valid_sandbox)).

(** ** The middleware, step by step *)

Lemma cacheRedirect_eq req w :
  cacheRedirect req w =
    let w2 := no_store (cors_block req w) in
    if bool_decide (req_method req = "GET") then
      match spread (declaredExternalResourcesInManifest w2) with
      | Throw e => (Throw e, w2)
      | Normal resources =>
          match Array_join " " ((JString <$> allowedOrigins w2) ++ resources) with
          | Throw e => (Throw e, w2)
          | Normal sources =>
              if valid_header_value (csp_prefix +:+ sources) then
                (Normal (), call_next (csp_headers sources w2))
              else
                (Throw (TypeError ("Invalid character in header content [" +:+
                                   String.String (chr 34) "" +:+ "content-security-policy" +:+
                                   String.String (chr 34) "" +:+ "]")), w2)
          end
      end
    else (Normal (), call_next w2).
Proof.
  unfold cacheRedirect, isCorsRequest, requestFromOutsideSandbox, cors_block.
  destruct (req_headers req !! "origin") as [o|]; unfold ne_undefined, ne_string;
    [destruct (bool_decide (o = "null"))|];
    destruct (bool_decide (req_method req = "GET")); run_M; try reflexivity.
  all: match goal with |- context [spread ?d] => destruct (spread d) as [resources|e] end;
    try reflexivity.
  all: match goal with |- context [Array_join ?a ?b] => destruct (Array_join a b) end;
    try reflexivity.
  all: destruct (valid_header_value _); run_M; reflexivity.
Qed.

Ltac split_run req w :=
  rewrite (cacheRedirect_eq req w); cbv zeta;
  destruct (bool_decide (req_method req = "GET")); [|reflexivity];
  destruct (spread _); [|reflexivity];
  destruct (Array_join _ _); [|reflexivity];
  destruct (valid_header_value _); reflexivity.

(** What the middleware leaves alone. *)
Lemma cacheRedirect_allowedOrigins req w :
  allowedOrigins (cacheRedirect req w).2 = allowedOrigins (cors_block req w).
Proof. split_run req w. Qed.

Lemma cacheRedirect_declared req w :
  declaredExternalResourcesInManifest (cacheRedirect req w).2
  = declaredExternalResourcesInManifest w.
Proof.
  transitivity (declaredExternalResourcesInManifest (cors_block req w)).
  - split_run req w.
  - unfold cors_block. destruct (req_headers req !! "origin"); [case_bool_decide|]; reflexivity.
Qed.

Lemma cacheRedirect_watchers req w : watchers (cacheRedirect req w).2 = watchers w.
Proof.
  transitivity (watchers (cors_block req w)).
  - split_run req w.
  - unfold cors_block. destruct (req_headers req !! "origin"); [case_bool_decide|]; reflexivity.
Qed.

(** Headers other than the three set after the Origin conditional keep the
    value that conditional left. *)
Lemma cacheRedirect_other_header name req w :
  to_lower name ≠ "cache-control" →
  to_lower name ≠ "content-security-policy" →
  to_lower name ≠ "x-content-security-policy" →
  getHeader name (res (cacheRedirect req w).2) = getHeader name (res (cors_block req w)).
Proof.
  intros H1 H2 H3. rewrite (cacheRedirect_eq req w); cbv zeta.
  destruct (bool_decide (req_method req = "GET")).
  - destruct (spread _); [destruct (Array_join _ _); [destruct (valid_header_value _)|]|];
      simpl; rewrite ?getHeader_setHeader_ne by assumption; reflexivity.
  - simpl. rewrite getHeader_setHeader_ne by assumption. reflexivity.
Qed.

Lemma elem_of_Set_add x s : x ∈ Set_add x s.
Proof. unfold Set_add. case_bool_decide; [done|]. apply elem_of_app. right. by left. Qed.

Lemma Set_add_NoDup x s : NoDup s → NoDup (Set_add x s).
Proof.
  intros H. unfold Set_add. case_bool_decide; [done|].
  apply NoDup_app. split_and!; [done | | apply NoDup_singleton].
  intros y Hy Hx. apply list_elem_of_singleton in Hx. congruence.
Qed.

(** The allowed origins stay distinct. *)
Lemma cacheRedirect_NoDup req w :
  NoDup (allowedOrigins w) → NoDup (allowedOrigins (cacheRedirect req w).2).
Proof.
  intros H. rewrite cacheRedirect_allowedOrigins. unfold cors_block.
  destruct (req_headers req !! "origin"); [case_bool_decide|]; try done.
  by apply Set_add_NoDup.
Qed.

Lemma element_strings_strings (l : list string) :
  element_strings ToString (JString <$> l) = Normal l.
Proof.
  induction l as [|s l IH]; [reflexivity|].
  rewrite fmap_cons. cbn [element_strings ToString]. by rewrite IH.
Qed.

Lemma Array_join_strings sep (l : list string) :
  Array_join sep (JString <$> l) = Normal (join sep l).
Proof. unfold Array_join. by rewrite element_strings_strings. Qed.

Lemma element_strings_app to_string (l1 l2 : list JsValue) ss1 ss2 :
  element_strings to_string l1 = Normal ss1 →
  element_strings to_string l2 = Normal ss2 →
  element_strings to_string (l1 ++ l2) = Normal (ss1 ++ ss2).
Proof.
  revert ss1. induction l1 as [|v l1 IH]; intros ss1 H1 H2.
  - injection H1 as <-. exact H2.
  - cbn [app element_strings] in *.
    destruct (match v with JUndefined | JNull => _ | _ => _ end) as [s|]; [|discriminate].
    destruct (element_strings to_string l1) as [ss|]; [|discriminate].
    injection H1 as <-. by rewrite (IH ss eq_refl H2).
Qed.

(** A GET over declared resources that form an array whose elements convert
    to the strings [ss], all of them, like the allowed origins, acceptable in
    a header value. *)
Lemma cacheRedirect_get_array req w elems ss :
  req_method req = "GET" →
  declaredExternalResourcesInManifest w = JArray elems →
  element_strings ToString elems = Normal ss →
  Forall (λ source, valid_header_value source = true)
         (allowedOrigins (cors_block req w) ++ ss) →
  cacheRedirect req w =
    (Normal (),
     call_next
       (csp_headers (join " " (allowedOrigins (cors_block req w) ++ ss))
          (no_store (cors_block req w)))).
Proof.
  intros Hget Hdecl Hss Hvalid.
  rewrite (cacheRedirect_eq req w). cbv zeta.
  rewrite (bool_decide_true _ Hget).
  assert (declaredExternalResourcesInManifest (no_store (cors_block req w))
          = JArray elems) as ->.
  { rewrite <- Hdecl. unfold cors_block.
    destruct (req_headers req !! "origin"); [case_bool_decide|]; reflexivity. }
  cbn [spread]. unfold Array_join.
  rewrite (element_strings_app _ _ _ _ _ (element_strings_strings _) Hss).
  cbn [no_store allowedOrigins set_res].
  by rewrite valid_append, valid_csp_prefix, (valid_join _ Hvalid).
Qed.

(** ** Claims about the middleware *)

(** C1, as the specification words it: every GET leaves a
    [content-security-policy] made of the prefix, the allowed origins and
    some sequence of declared resources, and the legacy header.  After a
    start-up on the manifest [{"externalResources": true}] the declared
    resources are [true], no sequence: the spread of the GET throws and no
    policy header is set. *)
Lemma C1_counterexample :
  ¬ (∀ req w,
       req_method req = "GET" →
       ∃ rs : list string,
         getHeader "content-security-policy" (res (cacheRedirect req w).2)
         = Some (csp_prefix +:+ join " " (allowedOrigins (cacheRedirect req w).2 ++ rs)) ∧
         getHeader "x-content-security-policy" (res (cacheRedirect req w).2)
         = Some "sandbox allow-scripts").
Proof.
  intros H.
  destruct (H (mkRequest "GET" ∅)
              (startServer project_config (loaded (project (manifest_with "true")) "/")).2
              eq_refl) as (rs & _ & Hlegacy).
  vm_compute in Hlegacy. discriminate Hlegacy.
Qed.

(** C1, amended. For a GET request handled while the declared resources are
    a sequence of strings and every allowed origin and declared resource is
    acceptable in a header value, the middleware returns normally, having set
    [content-security-policy] to the fixed prefix followed by the allowed
    origins and then the declared resources, joined by single spaces, and
    [x-content-security-policy] to [sandbox allow-scripts].  The allowed
    origins are those of the set as the request leaves it. *)
Theorem C1_get_sets_csp req w (rs : list string) :
  req_method req = "GET" →
  declaredExternalResourcesInManifest w = JArray (JString <$> rs) →
  Forall (λ source, valid_header_value source = true)
         (allowedOrigins (cacheRedirect req w).2 ++ rs) →
  (cacheRedirect req w).1 = Normal () ∧
  getHeader "content-security-policy" (res (cacheRedirect req w).2)
    = Some (csp_prefix +:+ join " " (allowedOrigins (cacheRedirect req w).2 ++ rs)) ∧
  getHeader "x-content-security-policy" (res (cacheRedirect req w).2)
    = Some "sandbox allow-scripts".
Proof.
  intros Hget Hdecl Hvalid. rewrite cacheRedirect_allowedOrigins in Hvalid.
  rewrite (cacheRedirect_get_array req w _ rs Hget Hdecl (element_strings_strings rs) Hvalid).
  cbn [fst snd]. split; [reflexivity|].
  unfold call_next, csp_headers, no_store. cbn [res allowedOrigins set_res set_nextCalls].
  split; headers; reflexivity.
Qed.

Lemma C1_witness :
  (cacheRedirect (mkRequest "GET" {["origin" := "http://localhost:8090"]})
     (set_declared (JArray (JString <$> ["https://example.com"]))
        (loaded (Dir []) "/"))).1 = Normal () ∧
  getHeader "content-security-policy"
    (res (cacheRedirect (mkRequest "GET" {["origin" := "http://localhost:8090"]})
            (set_declared (JArray (JString <$> ["https://example.com"]))
               (loaded (Dir []) "/"))).2)
    = Some (csp_prefix +:+
            join " " (allowedOrigins
                        (cacheRedirect
                           (mkRequest "GET" {["origin" := "http://localhost:8090"]})
                           (set_declared (JArray (JString <$> ["https://example.com"]))
                              (loaded (Dir []) "/"))).2
                      ++ ["https://example.com"])) ∧
  getHeader "x-content-security-policy"
    (res (cacheRedirect (mkRequest "GET" {["origin" := "http://localhost:8090"]})
            (set_declared (JArray (JString <$> ["https://example.com"]))
               (loaded (Dir []) "/"))).2)
    = Some "sandbox allow-scripts".
Proof.
  apply (C1_get_sets_csp
           (mkRequest "GET" {["origin" := "http://localhost:8090"]})
           (set_declared (JArray (JString <$> ["https://example.com"]))
              (loaded (Dir []) "/"))
           ["https://example.com"]); try reflexivity.
  vm_compute. repeat constructor.
Defined.

(** A resource with a line break in it (the manifest spells it [\n]) can sit
    in no header value: the GET throws when it sets the policy. *)
Example policy_refused_for_control_character :
  (cacheRedirect (mkRequest "GET" ∅)
     (startServer project_config
        (loaded (project (manifest_with ("[" +:+ quoted "a\nb" +:+ "]"))) "/")).2).1
  = Throw (TypeError ("Invalid character in header content [" +:+
                      quoted "content-security-policy" +:+ "]")) ∧
  getHeader "content-security-policy"
    (res (cacheRedirect (mkRequest "GET" ∅)
            (startServer project_config
               (loaded (project (manifest_with ("[" +:+ quoted "a\nb" +:+ "]"))) "/")).2).2)
  = None ∧
  nextCalls
    (cacheRedirect (mkRequest "GET" ∅)
       (startServer project_config
          (loaded (project (manifest_with ("[" +:+ quoted "a\nb" +:+ "]"))) "/")).2).2
  = 0%nat.
Proof. vm_compute. by repeat split. Qed.

(** C2. A request whose Origin header is non-empty and is not the string
    [null] leaves its origin in the allowed set and gets both cross-origin
    response headers. *)
Theorem C2_cors_request_allowed req w origin :
  req_headers req !! "origin" = Some origin →
  origin ≠ "" →
  origin ≠ "null" →
  origin ∈ allowedOrigins (cacheRedirect req w).2 ∧
  getHeader "Access-Control-Allow-Origin" (res (cacheRedirect req w).2) = Some "*" ∧
  getHeader "Access-Control-Allow-Headers" (res (cacheRedirect req w).2)
    = Some "Origin, X-Requested-With, Content-Type, Accept".
Proof.
  intros Ho _ Hnull.
  rewrite cacheRedirect_allowedOrigins.
  rewrite !cacheRedirect_other_header by (vm_compute; discriminate).
  unfold cors_block. rewrite Ho, (bool_decide_false _ Hnull). simpl.
  split; [apply elem_of_Set_add|]. split; headers; reflexivity.
Qed.

Lemma C2_witness :
  "http://localhost:8090"
    ∈ allowedOrigins
        (cacheRedirect (mkRequest "POST" {["origin" := "http://localhost:8090"]})
           (loaded (Dir []) "/")).2 ∧
  getHeader "Access-Control-Allow-Origin"
    (res (cacheRedirect (mkRequest "POST" {["origin" := "http://localhost:8090"]})
            (loaded (Dir []) "/")).2) = Some "*" ∧
  getHeader "Access-Control-Allow-Headers"
    (res (cacheRedirect (mkRequest "POST" {["origin" := "http://localhost:8090"]})
            (loaded (Dir []) "/")).2)
    = Some "Origin, X-Requested-With, Content-Type, Accept".
Proof.
  apply (C2_cors_request_allowed
           (mkRequest "POST" {["origin" := "http://localhost:8090"]})
           (loaded (Dir []) "/") "http://localhost:8090");
    [reflexivity | discriminate | discriminate].
Defined.

(** C3. A request whose Origin header is the string [null] leaves the allowed
    set as it was, and the [Access-Control-Allow-Origin] header of the
    response as it was (absent, if it was absent). *)
Theorem C3_sandboxed_origin_ignored req w :
  req_headers req !! "origin" = Some "null" →
  allowedOrigins (cacheRedirect req w).2 = allowedOrigins w ∧
  getHeader "Access-Control-Allow-Origin" (res (cacheRedirect req w).2)
    = getHeader "Access-Control-Allow-Origin" (res w).
Proof.
  intros Ho.
  rewrite cacheRedirect_allowedOrigins.
  rewrite cacheRedirect_other_header by (vm_compute; discriminate).
  unfold cors_block. rewrite Ho. split; reflexivity.
Qed.

Lemma C3_witness :
  allowedOrigins
    (cacheRedirect (mkRequest "GET" {["origin" := "null"]}) (loaded (Dir []) "/")).2
  = [] ∧
  getHeader "Access-Control-Allow-Origin"
    (res (cacheRedirect (mkRequest "GET" {["origin" := "null"]})
            (loaded (Dir []) "/")).2)
  = None.
Proof.
  apply (C3_sandboxed_origin_ignored
           (mkRequest "GET" {["origin" := "null"]}) (loaded (Dir []) "/")).
  reflexivity.
Defined.

(** C8. A request whose method is not GET makes the middleware call [next]
    once and return; neither [content-security-policy] nor
    [x-content-security-policy] is touched. *)
Theorem C8_non_get_no_csp req w :
  req_method req ≠ "GET" →
  (cacheRedirect req w).1 = Normal () ∧
  nextCalls (cacheRedirect req w).2 = S (nextCalls w) ∧
  getHeader "content-security-policy" (res (cacheRedirect req w).2)
    = getHeader "content-security-policy" (res w) ∧
  getHeader "x-content-security-policy" (res (cacheRedirect req w).2)
    = getHeader "x-content-security-policy" (res w).
Proof.
  intros Hm. rewrite (cacheRedirect_eq req w). cbv zeta.
  rewrite (bool_decide_false _ Hm). simpl.
  unfold cors_block.
  destruct (req_headers req !! "origin"); [case_bool_decide|]; simpl;
    (split; [reflexivity|]); (split; [reflexivity|]); split; headers; reflexivity.
Qed.

Lemma C8_witness :
  (cacheRedirect (mkRequest "POST" {["origin" := "http://localhost:8090"]})
     (loaded (Dir []) "/")).1 = Normal () ∧
  nextCalls
    (cacheRedirect (mkRequest "POST" {["origin" := "http://localhost:8090"]})
       (loaded (Dir []) "/")).2 = 1%nat ∧
  getHeader "content-security-policy"
    (res (cacheRedirect (mkRequest "POST" {["origin" := "http://localhost:8090"]})
            (loaded (Dir []) "/")).2) = None ∧
  getHeader "x-content-security-policy"
    (res (cacheRedirect (mkRequest "POST" {["origin" := "http://localhost:8090"]})
            (loaded (Dir []) "/")).2) = None.
Proof.
  apply (C8_non_get_no_csp
           (mkRequest "POST" {["origin" := "http://localhost:8090"]})
           (loaded (Dir []) "/")).
  discriminate.
Defined.

(** C6, as the specification words it: a request is a CORS request exactly
    when its Origin header is non-empty, and one with an empty Origin header
    changes neither the allowed set nor [Access-Control-Allow-Origin].  The
    request [GET] with [Origin:] (empty) refutes it: [origin != undefined]
    holds of the empty string. *)
Lemma C6_counterexample :
  ¬ (∀ req w,
       (isCorsRequest req = true ↔
        ∃ origin, req_headers req !! "origin" = Some origin ∧ origin ≠ "") ∧
       (req_headers req !! "origin" = Some "" →
        allowedOrigins (cacheRedirect req w).2 = allowedOrigins w ∧
        getHeader "Access-Control-Allow-Origin" (res (cacheRedirect req w).2)
          = getHeader "Access-Control-Allow-Origin" (res w))).
Proof.
  intros H.
  destruct (H (mkRequest "GET" {["origin" := ""]}) (loaded (Dir []) "/")) as [_ Hframe].
  destruct (Hframe eq_refl) as [Hset _].
  vm_compute in Hset. discriminate Hset.
Qed.

(** C6, amended. A request is a CORS request exactly when it carries an
    Origin header, empty or not; one whose Origin header is the empty string
    has the empty string added to the allowed set and
    [Access-Control-Allow-Origin: *] set. *)
Theorem C6_cors_iff_origin_present req w :
  (isCorsRequest req = true ↔ is_Some (req_headers req !! "origin")) ∧
  (req_headers req !! "origin" = Some "" →
   "" ∈ allowedOrigins (cacheRedirect req w).2 ∧
   getHeader "Access-Control-Allow-Origin" (res (cacheRedirect req w).2) = Some "*").
Proof.
  split.
  - unfold isCorsRequest, ne_undefined.
    destruct (req_headers req !! "origin"); split; intros H; try done.
    all: by destruct H.
  - intros Ho.
    rewrite cacheRedirect_allowedOrigins.
    rewrite cacheRedirect_other_header by (vm_compute; discriminate).
    unfold cors_block. rewrite Ho. simpl.
    split; [apply elem_of_Set_add | headers; reflexivity].
Qed.

Lemma C6_witness :
  "" ∈ allowedOrigins
         (cacheRedirect (mkRequest "GET" {["origin" := ""]}) (loaded (Dir []) "/")).2 ∧
  getHeader "Access-Control-Allow-Origin"
    (res (cacheRedirect (mkRequest "GET" {["origin" := ""]}) (loaded (Dir []) "/")).2)
  = Some "*".
Proof.
  apply (C6_cors_iff_origin_present
           (mkRequest "GET" {["origin" := ""]}) (loaded (Dir []) "/")).
  reflexivity.
Defined.

(** ** The manifest reader *)

Lemma readExternalResources_eq manifestPath w :
  readExternalResources manifestPath w =
    let w1 := set_calls (calls w ++ [FsReadFileSync manifestPath]) w in
    match Fs.readFile manifestPath (fs w) with
    | Throw e => (Normal (Rejected e), w1)
    | Normal content =>
        match JSON.parse content with
        | None => (Normal Fulfilled, w1)
        | Some json =>
            match get_property json "externalResources" with
            | Throw _ => (Normal Fulfilled, w1)
            | Normal field => (Normal Fulfilled, set_declared (js_or field (JArray [])) w1)
            end
        end
    end.
Proof.
  unfold readExternalResources, async, try_catch, fs_readFileSync, JSON_parse. run_M.
  destruct (Fs.readFile manifestPath (fs w)) as [content|e]; [|reflexivity].
  destruct (JSON.parse content) as [json|]; run_M; [|reflexivity].
  destruct (get_property json "externalResources"); reflexivity.
Qed.

(** A read whose file content is there always ends in a fulfilled promise:
    whatever the [try] block throws is swallowed. *)
Lemma readExternalResources_fulfilled manifestPath w content :
  Fs.readFile manifestPath (fs w) = Normal content →
  (readExternalResources manifestPath w).1 = Normal Fulfilled.
Proof.
  intros Hread. rewrite readExternalResources_eq. cbv zeta. rewrite Hread.
  destruct (JSON.parse content) as [json|]; [|reflexivity].
  destruct (get_property json "externalResources"); reflexivity.
Qed.

(** Content that parses to [null] has no properties to read: the [TypeError]
    is swallowed with the rest, and the previous value stays. *)
Lemma readExternalResources_null manifestPath w content :
  Fs.readFile manifestPath (fs w) = Normal content →
  JSON.parse content = Some JNull →
  declaredExternalResourcesInManifest (readExternalResources manifestPath w).2
  = declaredExternalResourcesInManifest w.
Proof.
  intros Hread Hparse. rewrite readExternalResources_eq. cbv zeta.
  rewrite Hread, Hparse. reflexivity.
Qed.

(** The values [||] replaces by its right operand. *)
Lemma truthy_false v :
  truthy v = false ↔
  v = JUndefined ∨ v = JNull ∨ v = JBool false ∨ v = JString "" ∨
  ∃ x, v = JNumber x ∧ Number.is_zero_or_nan x = true.
Proof.
  split.
  - destruct v as [| |[]|x|s| |]; simpl; try discriminate; try naive_solver.
    + intros H. apply negb_false_iff in H. naive_solver.
    + intros H. apply negb_false_iff, bool_decide_eq_true in H. naive_solver.
  - intros [->|[->|[->|[->|(x & -> & Hx)]]]]; simpl; try reflexivity.
    by rewrite Hx.
Qed.

(** C4, as the specification words it, in the part about values that are not
    array-like: such a field would leave the empty sequence.  The manifest
    [{"externalResources": true}] refutes it: [true || []] is [true]. *)
Lemma C4_counterexample :
  ¬ (∀ manifestPath w content json field,
       Fs.readFile manifestPath (fs w) = Normal content →
       JSON.parse content = Some json →
       get_property json "externalResources" = Normal field →
       match field with JArray _ | JString _ => False | _ => True end →
       declaredExternalResourcesInManifest (readExternalResources manifestPath w).2
       = JArray []).
Proof.
  intros H.
  specialize (H project_manifest (loaded (project (manifest_with "true")) "/")
                (manifest_with "true")
                (JObject [("externalResources", JBool true)]) (JBool true)
                eq_refl eq_refl eq_refl I).
  vm_compute in H. discriminate H.
Qed.

(** C4, amended. When the content parses to a value whose properties can be
    read (anything but [null]), the declared resources become the value of
    its [externalResources] field if that value is truthy, whatever its type,
    and the empty sequence if the field is absent or falsy. *)
Theorem C4_replaced_by_truthy_field manifestPath w content json field :
  Fs.readFile manifestPath (fs w) = Normal content →
  JSON.parse content = Some json →
  get_property json "externalResources" = Normal field →
  declaredExternalResourcesInManifest (readExternalResources manifestPath w).2
  = if truthy field then field else JArray [].
Proof.
  intros Hread Hparse Hfield. rewrite readExternalResources_eq. cbv zeta.
  rewrite Hread, Hparse, Hfield. reflexivity.
Qed.

Lemma C4_witness :
  declaredExternalResourcesInManifest
    (readExternalResources project_manifest
       (loaded (project (manifest_with ("[" +:+ quoted "https://example.com" +:+ "]"))) "/")).2
  = if truthy (JArray [JString "https://example.com"])
    then JArray [JString "https://example.com"] else JArray [].
Proof.
  apply (C4_replaced_by_truthy_field project_manifest
           (loaded (project (manifest_with ("[" +:+ quoted "https://example.com" +:+ "]"))) "/")
           (manifest_with ("[" +:+ quoted "https://example.com" +:+ "]"))
           (JObject [("externalResources", JArray [JString "https://example.com"])])
           (JArray [JString "https://example.com"]));
    reflexivity.
Defined.




(** The same scenario run as events: the policy of the GET still ends in [a]. *)
Example last_good_value_served :
  getHeader "content-security-policy"
    (res (run [FsChanges (project "{ oops"); WatchFires 0;
               RequestArrives (mkRequest "GET" ∅) (mkResponse ∅)] serving_a))
  = Some (csp_prefix +:+ "a").
Proof. vm_compute. reflexivity. Qed.

(** C10, as the specification words it: a failure to read the file leaves
    [readExternalResources] as an exception.  With the manifest deleted after
    start-up the call returns normally instead: the function is [async], and
    what it returns is a promise rejected with the [ENOENT] error. *)
Lemma C10_counterexample :
  ¬ (∀ manifestPath w e,
       Fs.readFile manifestPath (fs w) = Throw e →
       (readExternalResources manifestPath w).1 = Throw e).
Proof.
  intros H.
  specialize (H project_manifest (set_fs bare_project serving_a)
                (SystemError "ENOENT" project_manifest) eq_refl).
  vm_compute in H. discriminate H.
Qed.

(** C10, amended. A call of [readExternalResources] never throws: it returns
    a promise.  The promise is rejected exactly when reading the file fails,
    with that error as its reason, since the [try] block does not cover the
    read; the declared resources are then unchanged, and the module, which
    drops the promise, leaves the rejection unhandled.  Once the content is
    read the promise is fulfilled: whatever the [try] block throws (the
    [SyntaxError] of the parse, the [TypeError] for content [null]) is
    swallowed. *)
Theorem C10_read_failure_not_swallowed manifestPath w e :
  (∃ promise, (readExternalResources manifestPath w).1 = Normal promise) ∧
  ((readExternalResources manifestPath w).1 = Normal (Rejected e)
   ↔ Fs.readFile manifestPath (fs w) = Throw e) ∧
  (Fs.readFile manifestPath (fs w) = Throw e →
   declaredExternalResourcesInManifest (readExternalResources manifestPath w).2
   = declaredExternalResourcesInManifest w ∧
   unhandledRejections ((readExternalResources manifestPath ≫= discard) w).2
   = unhandledRejections w ++ [e]) ∧
  (∀ content,
     Fs.readFile manifestPath (fs w) = Normal content →
     (readExternalResources manifestPath w).1 = Normal Fulfilled).
Proof.
  split_and!.
  - destruct (Fs.readFile manifestPath (fs w)) as [content|e'] eqn:Hread.
    + rewrite (readExternalResources_fulfilled _ _ _ Hread). eauto.
    + rewrite readExternalResources_eq. cbv zeta. rewrite Hread. eauto.
  - split.
    + destruct (Fs.readFile manifestPath (fs w)) as [content|e'] eqn:Hread.
      * rewrite (readExternalResources_fulfilled _ _ _ Hread). discriminate.
      * rewrite readExternalResources_eq. cbv zeta. rewrite Hread. simpl. congruence.
    + intros Hread. rewrite readExternalResources_eq. cbv zeta. by rewrite Hread.
  - intros Hread. unfold mbind, M_bind.
    rewrite readExternalResources_eq. cbv zeta. rewrite Hread. split; reflexivity.
  - intros content Hread. by apply (readExternalResources_fulfilled _ _ content).
Qed.

(** The manifest is deleted after start-up and the watch listener runs. *)
Lemma C10_witness :
  declaredExternalResourcesInManifest
    (readExternalResources project_manifest (set_fs bare_project serving_a)).2
  = declaredExternalResourcesInManifest (set_fs bare_project serving_a) ∧
  unhandledRejections
    ((readExternalResources project_manifest ≫= discard)
       (set_fs bare_project serving_a)).2
  = unhandledRejections (set_fs bare_project serving_a)
    ++ [SystemError "ENOENT" project_manifest].
Proof.
  apply (C10_read_failure_not_swallowed project_manifest
           (set_fs bare_project serving_a)
           (SystemError "ENOENT" project_manifest)).
  vm_compute. reflexivity.
Defined.

(** ** Start-up *)

(** C7. When the resolved root directory does not exist, [startServer] throws
    and the only call it has made is the existence check: the server is not
    started, the directory is not listed, the manifest is not read, no watch
    is registered. *)
Theorem C7_missing_root_aborts partialConfig w root :
  (partialConfig ∪ defaultConfig) !! "root" = Some (CValue (JString root)) →
  Fs.exists_ (Path.resolve (cwd w) root) (fs w) = false →
  startServer partialConfig w
  = (Throw (ThrownString ("The path '" +:+ Path.resolve (cwd w) root +:+ "' does not exist.")),
     set_calls (calls w ++ [FsExistsSync (Path.resolve (cwd w) root)]) w) ∧
  ∀ c, c ∈ calls (startServer partialConfig w).2 →
       c ∈ calls w ∨ c = FsExistsSync (Path.resolve (cwd w) root).
Proof.
  intros Hroot Hmissing.
  assert (startServer partialConfig w
          = (Throw (ThrownString
                      ("The path '" +:+ Path.resolve (cwd w) root +:+ "' does not exist.")),
             set_calls (calls w ++ [FsExistsSync (Path.resolve (cwd w) root)]) w)) as E.
  { unfold startServer. rewrite Hroot. unfold path_resolve, fs_existsSync. run_M.
    rewrite Hmissing. reflexivity. }
  split; [exact E|].
  rewrite E. simpl. intros c Hc.
  apply elem_of_app in Hc as [Hc|Hc]; [by left|].
  apply list_elem_of_singleton in Hc. by right.
Qed.

Lemma C7_witness :
  startServer ∅ (loaded (project "{}") "/")
  = (Throw (ThrownString
              ("The path '" +:+
               Path.resolve (cwd (loaded (project "{}") "/")) "./test/test-files/" +:+
               "' does not exist.")),
     set_calls
       (calls (loaded (project "{}") "/")
        ++ [FsExistsSync
              (Path.resolve (cwd (loaded (project "{}") "/")) "./test/test-files/")])
       (loaded (project "{}") "/")) ∧
  ∀ c, c ∈ calls (startServer ∅ (loaded (project "{}") "/")).2 →
       c ∈ calls (loaded (project "{}") "/") ∨
       c = FsExistsSync
             (Path.resolve (cwd (loaded (project "{}") "/")) "./test/test-files/").
Proof.
  apply (C7_missing_root_aborts ∅ (loaded (project "{}") "/") "./test/test-files/");
    vm_compute; reflexivity.
Defined.

Lemma found_false files : manifestName ∉ files → found files = false.
Proof.
  intros Hnot. unfold found.
  destruct (find _ files) as [fileName|] eqn:Hfind; [|reflexivity].
  apply find_some in Hfind as [Hin Heq].
  apply bool_decide_eq_true in Heq. subst fileName.
  by apply list_elem_of_In in Hin.
Qed.

Lemma readdir_exists path tree files :
  Fs.readdir path tree = Normal files → Fs.exists_ path tree = true.
Proof.
  unfold Fs.readdir, Fs.exists_.
  destruct (Fs.lookup path tree) as [code|[content|entries]]; by intros.
Qed.

(** No listener and nothing declared: no event changes that. *)
Lemma step_without_watchers w ev :
  watchers w = [] →
  declaredExternalResourcesInManifest w = JArray [] →
  watchers (step w ev) = [] ∧ declaredExternalResourcesInManifest (step w ev) = JArray [].
Proof.
  intros Hw Hd. destruct ev as [req response|tree|i]; simpl.
  - by rewrite cacheRedirect_watchers, cacheRedirect_declared.
  - done.
  - by rewrite Hw.
Qed.

Lemma run_without_watchers evs w :
  watchers w = [] →
  declaredExternalResourcesInManifest w = JArray [] →
  watchers (run evs w) = [] ∧ declaredExternalResourcesInManifest (run evs w) = JArray [].
Proof.
  revert w. induction evs as [|ev evs IH]; intros w Hw Hd; [done|].
  destruct (step_without_watchers w ev Hw Hd) as [Hw' Hd'].
  by apply IH.
Qed.

(** C9. Started on a root directory that lists no [mod-manifest.json],
    from a module that has declared nothing and watches nothing, the server
    comes up with no watch registered; whatever follows (requests, changes of
    the disk such as the manifest appearing, watch events), none is ever
    registered and the declared resources stay the empty sequence. *)
Theorem C9_no_manifest_no_watch partialConfig w root files :
  declaredExternalResourcesInManifest w = JArray [] →
  watchers w = [] →
  (partialConfig ∪ defaultConfig) !! "root" = Some (CValue (JString root)) →
  Fs.readdir (Path.resolve (cwd w) root) (fs w) = Normal files →
  manifestName ∉ files →
  (startServer partialConfig w).1 = Normal () ∧
  ∀ evs,
    watchers (run evs (startServer partialConfig w).2) = [] ∧
    declaredExternalResourcesInManifest (run evs (startServer partialConfig w).2) = JArray [].
Proof.
  intros Hd Hw Hroot Hdir Hnone.
  assert (∃ cs, startServer partialConfig w = (Normal (), set_calls cs w)) as [cs E].
  { unfold startServer. rewrite Hroot.
    unfold path_resolve, fs_existsSync, readExternalResourcesFromManifest,
      fs_readdirSync, console_warn, devServer_start.
    run_M. rewrite (readdir_exists _ _ _ Hdir). simpl. rewrite Hdir. run_M.
    rewrite (found_false _ Hnone). run_M. eauto. }
  rewrite E. simpl. split; [reflexivity|].
  intros evs. by apply run_without_watchers.
Qed.

(** The project has no manifest at start-up; one that declares [a] is written
    later. *)
Lemma C9_witness :
  (startServer project_config (loaded bare_project "/")).1 = Normal () ∧
  ∀ evs,
    watchers (run evs (startServer project_config (loaded bare_project "/")).2) = [] ∧
    declaredExternalResourcesInManifest
      (run evs (startServer project_config (loaded bare_project "/")).2)
    = JArray [].
Proof.
  apply (C9_no_manifest_no_watch project_config (loaded bare_project "/")
           "./mod" ["index.html"]); try (vm_compute; reflexivity).
  apply (bool_decide_unpack _). vm_compute. exact I.
Defined.

Example manifest_created_later :
  getHeader "content-security-policy"
    (res (run [FsChanges (project (manifest_with ("[" +:+ quoted "a" +:+ "]")));
               WatchFires 0;
               RequestArrives (mkRequest "GET" ∅) (mkResponse ∅)]
            (startServer project_config (loaded bare_project "/")).2))
  = Some csp_prefix.
Proof. vm_compute. reflexivity. Qed.

(** The manifest present at start-up is read before the server starts. *)
Example declared_at_startup :
  getHeader "content-security-policy"
    (res (run [RequestArrives (mkRequest "GET" ∅) (mkResponse ∅)]
            (startServer project_config
               (loaded (project (manifest_with ("[" +:+ quoted "https://example.com" +:+ "]")))
                       "/")).2))
  = Some (csp_prefix +:+ "https://example.com").
Proof. vm_compute. reflexivity. Qed.

(** * Further properties of the module *)

(** ** The middleware *)

Ltac middleware_cases req w :=
  rewrite (cacheRedirect_eq req w); cbv zeta; unfold cors_block;
  (let o := fresh "origin" in
   destruct (req_headers req !! "origin") as [o|];
     [destruct (bool_decide (o = "null"))|]);
  (destruct (bool_decide (req_method req = "GET"));
   [destruct (spread _) as [resources|];
      [destruct (Array_join _ _); [destruct (valid_header_value _)|]|]|]);
  simpl.

(** X1. Every response leaves the middleware with [Cache-Control: no-store],
    whatever the method and the Origin header, also when the call throws. *)
Theorem cache_control_always_no_store req w :
  getHeader "Cache-Control" (res (cacheRedirect req w).2) = Some "no-store".
Proof. middleware_cases req w; headers; reflexivity. Qed.

(** X2. [next] is called exactly once when the middleware returns, and not
    at all when it throws. *)
Theorem next_called_once_unless_thrown req w :
  match (cacheRedirect req w).1 with
  | Normal _ => nextCalls (cacheRedirect req w).2 = S (nextCalls w)
  | Throw _ => nextCalls (cacheRedirect req w).2 = nextCalls w
  end.
Proof. middleware_cases req w; reflexivity. Qed.

(** X3. The middleware touches only the allowed origins and the exchange:
    the declared resources, the disk, the watchers, the recorded calls and the
    unhandled rejections are as before. *)
Theorem middleware_frame req w :
  declaredExternalResourcesInManifest (cacheRedirect req w).2
    = declaredExternalResourcesInManifest w ∧
  fs (cacheRedirect req w).2 = fs w ∧
  cwd (cacheRedirect req w).2 = cwd w ∧
  watchers (cacheRedirect req w).2 = watchers w ∧
  calls (cacheRedirect req w).2 = calls w ∧
  unhandledRejections (cacheRedirect req w).2 = unhandledRejections w.
Proof. middleware_cases req w; by repeat split. Qed.

(** X4. A request without an Origin header is no CORS request: the allowed
    origins and both cross-origin response headers are left as they were. *)
Theorem no_origin_no_cors req w :
  req_headers req !! "origin" = None →
  isCorsRequest req = false ∧
  allowedOrigins (cacheRedirect req w).2 = allowedOrigins w ∧
  getHeader "Access-Control-Allow-Origin" (res (cacheRedirect req w).2)
    = getHeader "Access-Control-Allow-Origin" (res w) ∧
  getHeader "Access-Control-Allow-Headers" (res (cacheRedirect req w).2)
    = getHeader "Access-Control-Allow-Headers" (res w).
Proof.
  intros Ho. unfold isCorsRequest.
  rewrite cacheRedirect_allowedOrigins.
  rewrite !cacheRedirect_other_header by (vm_compute; discriminate).
  unfold cors_block. rewrite Ho. by repeat split.
Qed.

Lemma no_origin_no_cors_witness :
  isCorsRequest (mkRequest "GET" ∅) = false ∧
  allowedOrigins (cacheRedirect (mkRequest "GET" ∅) serving_a).2 = allowedOrigins serving_a ∧
  getHeader "Access-Control-Allow-Origin" (res (cacheRedirect (mkRequest "GET" ∅) serving_a).2)
    = getHeader "Access-Control-Allow-Origin" (res serving_a) ∧
  getHeader "Access-Control-Allow-Headers" (res (cacheRedirect (mkRequest "GET" ∅) serving_a).2)
    = getHeader "Access-Control-Allow-Headers" (res serving_a).
Proof. apply (no_origin_no_cors (mkRequest "GET" ∅) serving_a). reflexivity. Defined.

(** X5. When the declared resources are neither an array nor a string (a
    manifest can leave such a value), a GET makes the middleware throw a
    [TypeError] from the spread: [next] is not called and neither policy
    header is set, while the headers set before the policy stay. *)
Theorem get_throws_on_non_iterable req w :
  req_method req = "GET" →
  match declaredExternalResourcesInManifest w with
  | JArray _ | JString _ => False
  | _ => True
  end →
  (∃ msg, (cacheRedirect req w).1 = Throw (TypeError msg)) ∧
  nextCalls (cacheRedirect req w).2 = nextCalls w ∧
  getHeader "content-security-policy" (res (cacheRedirect req w).2)
    = getHeader "content-security-policy" (res w) ∧
  getHeader "x-content-security-policy" (res (cacheRedirect req w).2)
    = getHeader "x-content-security-policy" (res w).
Proof.
  intros Hget Hshape.
  pose proof (cacheRedirect_declared req w) as Hd.
  rewrite (cacheRedirect_eq req w) in *. cbv zeta in *.
  rewrite (bool_decide_true _ Hget) in *.
  assert (declaredExternalResourcesInManifest (no_store (cors_block req w))
          = declaredExternalResourcesInManifest w) as E.
  { unfold cors_block.
    destruct (req_headers req !! "origin"); [case_bool_decide|]; reflexivity. }
  rewrite E.
  destruct (declaredExternalResourcesInManifest w); try done; cbn [spread fst snd];
    (split; [eauto|]);
    unfold cors_block;
    (destruct (req_headers req !! "origin") as [o|];
       [destruct (bool_decide (o = "null"))|]); simpl;
    (split; [reflexivity|]); split; headers; reflexivity.
Qed.

Lemma get_throws_on_non_iterable_witness :
  (∃ msg, (cacheRedirect (mkRequest "GET" ∅) declared_true).1 = Throw (TypeError msg)) ∧
  nextCalls (cacheRedirect (mkRequest "GET" ∅) declared_true).2 = nextCalls declared_true ∧
  getHeader "content-security-policy" (res (cacheRedirect (mkRequest "GET" ∅) declared_true).2)
    = getHeader "content-security-policy" (res declared_true) ∧
  getHeader "x-content-security-policy" (res (cacheRedirect (mkRequest "GET" ∅) declared_true).2)
    = getHeader "x-content-security-policy" (res declared_true).
Proof.
  apply (get_throws_on_non_iterable (mkRequest "GET" ∅) declared_true);
    vm_compute; [reflexivity | exact I].
Defined.

Lemma cacheRedirect_get_spread req w elems ss :
  req_method req = "GET" →
  spread (declaredExternalResourcesInManifest w) = Normal elems →
  element_strings ToString elems = Normal ss →
  Forall (λ source, valid_header_value source = true)
         (allowedOrigins (cors_block req w) ++ ss) →
  cacheRedirect req w =
    (Normal (),
     call_next
       (csp_headers (join " " (allowedOrigins (cors_block req w) ++ ss))
          (no_store (cors_block req w)))).
Proof.
  intros Hget Hspread Hss Hvalid.
  rewrite (cacheRedirect_eq req w). cbv zeta.
  rewrite (bool_decide_true _ Hget).
  assert (declaredExternalResourcesInManifest (no_store (cors_block req w))
          = declaredExternalResourcesInManifest w) as ->.
  { unfold cors_block.
    destruct (req_headers req !! "origin") as [o|];
      [destruct (bool_decide (o = "null"))|]; reflexivity. }
  rewrite Hspread. unfold Array_join.
  rewrite (element_strings_app _ _ _ _ _ (element_strings_strings _) Hss).
  cbn [no_store allowedOrigins set_res].
  by rewrite valid_append, valid_csp_prefix, (valid_join _ Hvalid).
Qed.

Lemma valid_chars s :
  valid_header_value s = true
  ↔ Forall (λ c, valid_header_char c = true) (String.list_ascii_of_string s).
Proof.
  induction s as [|c s IH].
  - split; [constructor|reflexivity].
  - change (valid_header_value (String.String c s))
      with (valid_header_char c && valid_header_value s).
    cbn [String.list_ascii_of_string].
    rewrite Forall_cons, andb_true_iff, IH. reflexivity.
Qed.

Lemma valid_string_of_list cs :
  Forall (λ c, valid_header_char c = true) cs →
  valid_header_value (String.string_of_list_ascii cs) = true.
Proof.
  intros H. apply valid_chars. by rewrite String.list_ascii_of_string_of_list_ascii.
Qed.

(** Taking a string apart by code points keeps its characters. *)
Lemma code_points_aux_valid n cur cs :
  Forall (λ c, valid_header_char c = true) cur →
  Forall (λ c, valid_header_char c = true) cs →
  Forall (λ part, valid_header_value part = true) (code_points_aux n cur cs).
Proof.
  revert n cur. induction cs as [|c cs IH]; intros n cur Hcur Hcs.
  - destruct cur as [|c' cur]; cbn [code_points_aux]; [constructor|].
    constructor; [|constructor]. apply valid_string_of_list. by apply Forall_rev.
  - apply Forall_cons in Hcs as [Hc Hcs].
    destruct n as [|n]; cbn [code_points_aux].
    + destruct cur as [|c' cur].
      * apply IH; [by repeat constructor|done].
      * constructor.
        -- apply valid_string_of_list. by apply Forall_rev.
        -- apply IH; [by repeat constructor|done].
    + apply IH; [by constructor|done].
Qed.

Lemma code_points_valid s :
  valid_header_value s = true →
  Forall (λ part, valid_header_value part = true) (code_points s).
Proof.
  intros H. apply code_points_aux_valid; [constructor|by apply valid_chars].
Qed.

(** X6. A manifest that gives [externalResources] as one string instead of
    a list leaves that string as the declared resources; when the string and
    the allowed origins are acceptable in a header value, the spread of a GET
    takes the string apart and the policy lists each of its characters as a
    source of its own. *)
Theorem string_resource_spread_by_character req w s :
  req_method req = "GET" →
  declaredExternalResourcesInManifest w = JString s →
  valid_header_value s = true →
  Forall (λ origin, valid_header_value origin = true)
         (allowedOrigins (cacheRedirect req w).2) →
  (cacheRedirect req w).1 = Normal () ∧
  getHeader "content-security-policy" (res (cacheRedirect req w).2)
    = Some (csp_prefix +:+
            join " " (allowedOrigins (cacheRedirect req w).2 ++ code_points s)).
Proof.
  intros Hget Hdecl Hs Horigins. rewrite cacheRedirect_allowedOrigins in Horigins.
  rewrite (cacheRedirect_get_spread req w (JString <$> code_points s) (code_points s) Hget).
  - split; [reflexivity|].
    unfold call_next, csp_headers, no_store.
    cbn [snd res allowedOrigins set_res set_nextCalls]. headers. reflexivity.
  - by rewrite Hdecl.
  - apply element_strings_strings.
  - apply Forall_app. split; [done|by apply code_points_valid].
Qed.

Lemma string_resource_spread_by_character_witness :
  (cacheRedirect (mkRequest "GET" ∅)
     (readExternalResources project_manifest
        (loaded (project (manifest_with (quoted "ab"))) "/")).2).1 = Normal () ∧
  getHeader "content-security-policy"
    (res (cacheRedirect (mkRequest "GET" ∅)
            (readExternalResources project_manifest
               (loaded (project (manifest_with (quoted "ab"))) "/")).2).2)
  = Some (csp_prefix +:+
          join " " (allowedOrigins
                      (cacheRedirect (mkRequest "GET" ∅)
                         (readExternalResources project_manifest
                            (loaded (project (manifest_with (quoted "ab"))) "/")).2).2
                    ++ code_points "ab")).
Proof.
  apply (string_resource_spread_by_character (mkRequest "GET" ∅)
           (readExternalResources project_manifest
              (loaded (project (manifest_with (quoted "ab"))) "/")).2 "ab");
    vm_compute; try reflexivity.
  constructor.
Defined.

Example string_resource_policy :
  getHeader "content-security-policy"
    (res (cacheRedirect (mkRequest "GET" ∅)
            (readExternalResources project_manifest
               (loaded (project (manifest_with (quoted "ab"))) "/")).2).2)
  = Some (csp_prefix +:+ "a b").
Proof. vm_compute. reflexivity. Qed.

(** ** The manifest reader *)

(** X7. A read, with its promise dropped as the module drops it, returns
    normally whatever happens, makes exactly one file read, and touches
    neither the allowed origins, the disk, the watchers nor the exchange. *)
Theorem read_frame manifestPath w :
  ((readExternalResources manifestPath ≫= discard) w).1 = Normal () ∧
  calls ((readExternalResources manifestPath ≫= discard) w).2
    = calls w ++ [FsReadFileSync manifestPath] ∧
  allowedOrigins ((readExternalResources manifestPath ≫= discard) w).2 = allowedOrigins w ∧
  fs ((readExternalResources manifestPath ≫= discard) w).2 = fs w ∧
  cwd ((readExternalResources manifestPath ≫= discard) w).2 = cwd w ∧
  watchers ((readExternalResources manifestPath ≫= discard) w).2 = watchers w ∧
  res ((readExternalResources manifestPath ≫= discard) w).2 = res w ∧
  nextCalls ((readExternalResources manifestPath ≫= discard) w).2 = nextCalls w.
Proof.
  unfold mbind, M_bind. rewrite readExternalResources_eq. cbv zeta.
  destruct (Fs.readFile manifestPath (fs w)) as [content|e]; [|by repeat split].
  destruct (JSON.parse content) as [json|]; [|by repeat split].
  destruct (get_property json "externalResources"); by repeat split.
Qed.

(** X8. A read that succeeds replaces the declared resources, it does not
    merge: when the manifest lists the strings [rs], which like the allowed
    origins are acceptable in a header value, the policy of a GET that follows
    lists the allowed origins and [rs], and nothing of what was declared
    before. *)
Theorem reload_replaces_wholesale manifestPath w content json (rs : list string) req :
  Fs.readFile manifestPath (fs w) = Normal content →
  JSON.parse content = Some json →
  get_property json "externalResources" = Normal (JArray (JString <$> rs)) →
  req_method req = "GET" →
  Forall (λ source, valid_header_value source = true)
         (allowedOrigins (cacheRedirect req (readExternalResources manifestPath w).2).2
          ++ rs) →
  getHeader "content-security-policy"
    (res (cacheRedirect req (readExternalResources manifestPath w).2).2)
  = Some (csp_prefix +:+
          join " " (allowedOrigins
                      (cacheRedirect req (readExternalResources manifestPath w).2).2
                    ++ rs)).
Proof.
  intros Hread Hparse Hfield Hget Hvalid.
  assert (declaredExternalResourcesInManifest (readExternalResources manifestPath w).2
          = JArray (JString <$> rs)) as Hdecl.
  { rewrite readExternalResources_eq. cbv zeta. by rewrite Hread, Hparse, Hfield. }
  rewrite cacheRedirect_allowedOrigins in Hvalid.
  rewrite (cacheRedirect_get_array req _ _ rs Hget Hdecl (element_strings_strings rs) Hvalid).
  unfold call_next, csp_headers, no_store.
  cbn [snd res allowedOrigins set_res set_nextCalls]. headers. reflexivity.
Qed.

(** The manifest goes from declaring [a] to declaring [b] and [c]. *)
Lemma reload_replaces_wholesale_witness :
  getHeader "content-security-policy"
    (res (cacheRedirect (mkRequest "GET" ∅)
            (readExternalResources project_manifest
               (set_fs (project (manifest_with ("[" +:+ quoted "b" +:+ "," +:+ quoted "c" +:+ "]")))
                       serving_a)).2).2)
  = Some (csp_prefix +:+
          join " " (allowedOrigins
                      (cacheRedirect (mkRequest "GET" ∅)
                         (readExternalResources project_manifest
                            (set_fs (project (manifest_with
                                                ("[" +:+ quoted "b" +:+ "," +:+ quoted "c" +:+ "]")))
                                    serving_a)).2).2
                    ++ ["b"; "c"])).
Proof.
  apply (reload_replaces_wholesale project_manifest
           (set_fs (project (manifest_with ("[" +:+ quoted "b" +:+ "," +:+ quoted "c" +:+ "]")))
                   serving_a)
           (manifest_with ("[" +:+ quoted "b" +:+ "," +:+ quoted "c" +:+ "]"))
           (JObject [("externalResources", JArray [JString "b"; JString "c"])])
           ["b"; "c"] (mkRequest "GET" ∅));
    vm_compute; try reflexivity.
  repeat constructor.
Defined.

(** ** The server over its lifetime *)

Lemma elem_of_Set_add_iff y x s : y ∈ Set_add x s ↔ y = x ∨ y ∈ s.
Proof.
  unfold Set_add. case_bool_decide as Hin.
  - split; [by right|]. intros [->|]; done.
  - rewrite elem_of_app, list_elem_of_singleton. tauto.
Qed.

Lemma Set_add_prefix x s : s `prefix_of` Set_add x s.
Proof. unfold Set_add. case_bool_decide; [done|]. by apply prefix_app_r. Qed.

Lemma step_allowedOrigins w ev :
  allowedOrigins (step w ev)
  = match ev with
    | RequestArrives req _ => origins_after req (allowedOrigins w)
    | _ => allowedOrigins w
    end.
Proof.
  destruct ev as [req response|tree|i]; simpl; [|reflexivity|].
  - rewrite cacheRedirect_allowedOrigins. unfold cors_block, origins_after. simpl.
    destruct (req_headers req !! "origin") as [o|];
      [destruct (bool_decide (o = "null"))|]; reflexivity.
  - destruct (watchers w !! i) as [manifestPath|]; [|reflexivity].
    apply read_frame.
Qed.

Lemma elem_of_origins_after x req origins :
  x ∈ origins_after req origins
  ↔ x ∈ origins ∨ (x ≠ "null" ∧ req_headers req !! "origin" = Some x).
Proof.
  unfold origins_after.
  destruct (req_headers req !! "origin") as [o|]; [case_bool_decide as Hnull|].
  - subst o. split; [by left|]. intros [?|[Hx [= <-]]]; done.
  - rewrite elem_of_Set_add_iff. split.
    + intros [->|?]; [right|left]; done.
    + intros [?|[_ [= ->]]]; [right|left]; done.
  - split; [by left|]. intros [?|[_ ?]]; done.
Qed.

(** X9. Origins are only ever appended to the allowed set: whatever happens
    after a state, the set of that state is an initial segment of the later
    one; no origin is removed or reordered. *)
Theorem allowed_origins_only_grow evs w :
  allowedOrigins w `prefix_of` allowedOrigins (run evs w).
Proof.
  revert w. induction evs as [|ev evs IH]; intros w; [done|].
  change (run (ev :: evs) w) with (run evs (step w ev)).
  etrans; [|apply IH].
  rewrite step_allowedOrigins.
  destruct ev as [req response|tree|i]; try done.
  unfold origins_after.
  destruct (req_headers req !! "origin") as [o|]; [case_bool_decide|]; try done.
  apply Set_add_prefix.
Qed.

(** X10. The allowed origins stay pairwise distinct: an origin seen again is
    not listed a second time. *)
Theorem allowed_origins_stay_distinct evs w :
  NoDup (allowedOrigins w) → NoDup (allowedOrigins (run evs w)).
Proof.
  revert w. induction evs as [|ev evs IH]; intros w Hw; [done|].
  change (run (ev :: evs) w) with (run evs (step w ev)).
  apply IH. rewrite step_allowedOrigins.
  destruct ev as [req response|tree|i]; try done.
  unfold origins_after.
  destruct (req_headers req !! "origin") as [o|]; [case_bool_decide|]; try done.
  by apply Set_add_NoDup.
Qed.

Lemma allowed_origins_stay_distinct_witness :
  NoDup (allowedOrigins
           (run [RequestArrives (mkRequest "GET" {["origin" := "http://a"]}) (mkResponse ∅);
                 RequestArrives (mkRequest "POST" {["origin" := "http://b"]}) (mkResponse ∅);
                 RequestArrives (mkRequest "GET" {["origin" := "http://a"]}) (mkResponse ∅)]
              serving_a)).
Proof.
  apply (allowed_origins_stay_distinct
           [RequestArrives (mkRequest "GET" {["origin" := "http://a"]}) (mkResponse ∅);
            RequestArrives (mkRequest "POST" {["origin" := "http://b"]}) (mkResponse ∅);
            RequestArrives (mkRequest "GET" {["origin" := "http://a"]}) (mkResponse ∅)]
           serving_a).
  vm_compute. apply NoDup_nil_2.
Defined.

(** X11. The allowed origins at any later time are exactly those allowed
    before together with the Origin headers, other than [null], of the
    requests that arrived in between; in particular [null] never enters. *)
Theorem allowed_origins_are_request_origins evs w x :
  x ∈ allowedOrigins (run evs w)
  ↔ x ∈ allowedOrigins w ∨
    (x ≠ "null" ∧
     ∃ req response, RequestArrives req response ∈ evs ∧ req_headers req !! "origin" = Some x).
Proof.
  revert w. induction evs as [|ev evs IH]; intros w.
  - simpl. split; [by left|]. intros [?|(_ & req & response & Hin & _)]; [done|].
    by apply not_elem_of_nil in Hin.
  - change (run (ev :: evs) w) with (run evs (step w ev)).
    rewrite IH, step_allowedOrigins. split.
    + intros [Hx|(Hnull & req & response & Hin & Ho)].
      * destruct ev as [req response|tree|i]; [|by left..].
        apply elem_of_origins_after in Hx as [?|[Hnull Ho]]; [by left|].
        right. split; [done|]. exists req, response. split; [by left|done].
      * right. split; [done|]. exists req, response. split; [by right|done].
    + intros [Hx|(Hnull & req & response & Hin & Ho)].
      * left. destruct ev as [req response|tree|i]; try done.
        apply elem_of_origins_after. by left.
      * apply elem_of_cons in Hin as [<-|Hin].
        -- left. apply elem_of_origins_after. by right.
        -- right. split; [done|]. by exists req, response.
Qed.

(** X12. No request and no change of the disk alters the declared
    resources: they change only when a watch listener runs, so a manifest
    rewritten on disk is not seen before its watch event. *)
Theorem declared_changes_only_on_watch evs w :
  Forall (λ ev, is_watch ev = false) evs →
  declaredExternalResourcesInManifest (run evs w) = declaredExternalResourcesInManifest w.
Proof.
  revert w. induction evs as [|ev evs IH]; intros w Hevs; [done|].
  change (run (ev :: evs) w) with (run evs (step w ev)).
  apply Forall_cons in Hevs as [Hev Hevs]. rewrite (IH _ Hevs).
  destruct ev as [req response|tree|i]; [|done|discriminate Hev].
  simpl. by rewrite cacheRedirect_declared.
Qed.

(** The manifest is rewritten to declare [b]; until the watch event the GET
    still gets the policy for [a]. *)
Lemma declared_changes_only_on_watch_witness :
  declaredExternalResourcesInManifest
    (run [FsChanges (project (manifest_with ("[" +:+ quoted "b" +:+ "]")));
          RequestArrives (mkRequest "GET" ∅) (mkResponse ∅)] serving_a)
  = declaredExternalResourcesInManifest serving_a.
Proof.
  apply (declared_changes_only_on_watch
           [FsChanges (project (manifest_with ("[" +:+ quoted "b" +:+ "]")));
            RequestArrives (mkRequest "GET" ∅) (mkResponse ∅)] serving_a).
  repeat constructor.
Defined.

(** X13. Watches are registered at start-up only: no request, disk change
    or watch event adds or removes one. *)
Theorem watchers_fixed_after_startup evs w :
  watchers (run evs w) = watchers w.
Proof.
  revert w. induction evs as [|ev evs IH]; intros w; [done|].
  change (run (ev :: evs) w) with (run evs (step w ev)).
  rewrite IH. destruct ev as [req response|tree|i]; simpl; [|done|].
  - by rewrite cacheRedirect_watchers.
  - destruct (watchers w !! i) as [manifestPath|]; [|done]. apply read_frame.
Qed.

(** ** Start-up, continued *)

Lemma found_true files : manifestName ∈ files → found files = true.
Proof.
  intros Hin. unfold found.
  destruct (find _ files) as [fileName|] eqn:Hfind.
  - apply find_some in Hfind as [_ Heq]. apply bool_decide_eq_true in Heq. by subst.
  - apply list_elem_of_In in Hin.
    pose proof (find_none _ _ Hfind _ Hin) as Hno. cbv beta in Hno.
    by apply bool_decide_eq_false in Hno.
Qed.

Ltac start_up :=
  unfold startServer, path_resolve, fs_existsSync, readExternalResourcesFromManifest,
    fs_readdirSync, fs_watch, console_warn, devServer_start; run_M.

(** X14. Started on a root directory without manifest, the server warns on
    the console, naming the directory, and is started all the same with the
    merged configuration; these are its only calls besides the existence check
    and the listing. *)
Theorem missing_manifest_warns_and_starts partialConfig w root files :
  (partialConfig ∪ defaultConfig) !! "root" = Some (CValue (JString root)) →
  Fs.readdir (Path.resolve (cwd w) root) (fs w) = Normal files →
  manifestName ∉ files →
  startServer partialConfig w
  = (Normal (),
     set_calls
       (calls w ++
        [FsExistsSync (Path.resolve (cwd w) root);
         FsReaddirSync (Path.resolve (cwd w) root);
         ConsoleWarn ["Could not find a mod-manifest.json in the root directory";
                      Path.resolve (cwd w) root];
         DevServerStart (partialConfig ∪ defaultConfig)]) w).
Proof.
  intros Hroot Hdir Hnone. start_up. rewrite Hroot. run_M.
  rewrite (readdir_exists _ _ _ Hdir). simpl. rewrite Hdir. run_M.
  rewrite (found_false _ Hnone). run_M.
  unfold set_calls. simpl. by rewrite <- !app_assoc.
Qed.

Lemma missing_manifest_warns_and_starts_witness :
  startServer project_config (loaded bare_project "/")
  = (Normal (),
     set_calls
       (calls (loaded bare_project "/") ++
        [FsExistsSync (Path.resolve (cwd (loaded bare_project "/")) "./mod");
         FsReaddirSync (Path.resolve (cwd (loaded bare_project "/")) "./mod");
         ConsoleWarn ["Could not find a mod-manifest.json in the root directory";
                      Path.resolve (cwd (loaded bare_project "/")) "./mod"];
         DevServerStart (project_config ∪ defaultConfig)]) (loaded bare_project "/")).
Proof.
  apply (missing_manifest_warns_and_starts project_config (loaded bare_project "/")
           "./mod" ["index.html"]); try (vm_compute; reflexivity).
  apply (bool_decide_unpack _). vm_compute. exact I.
Defined.

(** X15. When the root exists but cannot be listed (it is a file, say),
    the error of the listing leaves [startServer]: nothing is read or watched
    and the server is not started. *)
Theorem unlistable_root_aborts partialConfig w root e :
  (partialConfig ∪ defaultConfig) !! "root" = Some (CValue (JString root)) →
  Fs.exists_ (Path.resolve (cwd w) root) (fs w) = true →
  Fs.readdir (Path.resolve (cwd w) root) (fs w) = Throw e →
  startServer partialConfig w
  = (Throw e,
     set_calls
       (calls w ++
        [FsExistsSync (Path.resolve (cwd w) root);
         FsReaddirSync (Path.resolve (cwd w) root)]) w).
Proof.
  intros Hroot Hexists Hdir. start_up. rewrite Hroot. run_M.
  rewrite Hexists. simpl. rewrite Hdir.
  unfold set_calls. simpl. by rewrite <- !app_assoc.
Qed.

Lemma unlistable_root_aborts_witness :
  startServer {["root" := CValue (JString "/mod/index.html")]} (loaded bare_project "/")
  = (Throw (SystemError "ENOTDIR" "/mod/index.html"),
     set_calls
       (calls (loaded bare_project "/") ++
        [FsExistsSync (Path.resolve (cwd (loaded bare_project "/")) "/mod/index.html");
         FsReaddirSync (Path.resolve (cwd (loaded bare_project "/")) "/mod/index.html")])
       (loaded bare_project "/")).
Proof.
  apply (unlistable_root_aborts {["root" := CValue (JString "/mod/index.html")]}
           (loaded bare_project "/") "/mod/index.html"
           (SystemError "ENOTDIR" "/mod/index.html"));
    vm_compute; reflexivity.
Defined.

Lemma manifest_found_eq r w files :
  Fs.readdir r (fs w) = Normal files →
  manifestName ∈ files →
  readExternalResourcesFromManifest r w =
    let manifestPath := Path.join2 r manifestName in
    let w3 := ((readExternalResources manifestPath ≫= discard)
                 (set_calls (calls w ++ [FsReaddirSync r]) w)).2 in
    let w4 := set_calls (calls w3 ++ [FsWatch manifestPath]) w3 in
    if Fs.exists_ manifestPath (fs w) then
      (Normal (), set_watchers (watchers w4 ++ [manifestPath]) w4)
    else (Throw (SystemError "ENOENT" manifestPath), w4).
Proof.
  intros Hdir Hin. cbv zeta.
  pose proof (read_frame (Path.join2 r manifestName)
                (set_calls (calls w ++ [FsReaddirSync r]) w)) as (Hnormal & _ & _ & Hfs & _).
  unfold readExternalResourcesFromManifest, fs_readdirSync, fs_watch in *. run_M.
  rewrite Hdir, (found_true _ Hin).
  unfold mbind, M_bind in Hnormal, Hfs.
  destruct (readExternalResources _ _) as [[promise|e] w3]; [|discriminate Hnormal].
  destruct (discard promise w3) as [[[]|e] w3']; [|discriminate Hnormal].
  simpl in *. rewrite Hfs.
  destruct (Fs.exists_ _ (fs w)); reflexivity.
Qed.

Lemma manifest_missing_eq r w files :
  Fs.readdir r (fs w) = Normal files →
  manifestName ∉ files →
  readExternalResourcesFromManifest r w
  = (Normal (),
     set_calls
       (calls w ++
        [FsReaddirSync r;
         ConsoleWarn ["Could not find a mod-manifest.json in the root directory"; r]]) w).
Proof.
  intros Hdir Hnone.
  unfold readExternalResourcesFromManifest, fs_readdirSync, console_warn. run_M.
  rewrite Hdir, (found_false _ Hnone). run_M.
  unfold set_calls. simpl. by rewrite <- !app_assoc.
Qed.

Lemma manifest_unlistable_eq r w e :
  Fs.readdir r (fs w) = Throw e →
  readExternalResourcesFromManifest r w
  = (Throw e, set_calls (calls w ++ [FsReaddirSync r]) w).
Proof.
  intros Hdir. unfold readExternalResourcesFromManifest, fs_readdirSync. run_M.
  by rewrite Hdir.
Qed.

Lemma bind_eq {A B} (m : M A) (k : A → M B) w :
  (m ≫= k) w
  = match m w with
    | (Normal a, w') => k a w'
    | (Throw e, w') => (Throw e, w')
    end.
Proof. reflexivity. Qed.

(** [startServer] once the root is known to be a string. *)
Lemma startServer_root_eq partialConfig w root :
  (partialConfig ∪ defaultConfig) !! "root" = Some (CValue (JString root)) →
  startServer partialConfig w =
    let r := Path.resolve (cwd w) root in
    let w1 := set_calls (calls w ++ [FsExistsSync r]) w in
    if Fs.exists_ r (fs w) then
      match readExternalResourcesFromManifest r w1 with
      | (Normal _, w') =>
          (Normal (), set_calls (calls w' ++ [DevServerStart (partialConfig ∪ defaultConfig)]) w')
      | (Throw e, w') => (Throw e, w')
      end
    else (Throw (ThrownString ("The path '" +:+ r +:+ "' does not exist.")), w1).
Proof.
  intros Hroot. unfold startServer. cbv zeta. rewrite Hroot.
  rewrite bind_eq. unfold path_resolve. rewrite bind_eq. unfold gets at 1.
  cbn [mret M_ret]. rewrite bind_eq. unfold fs_existsSync. rewrite bind_eq.
  unfold record_call, modify, gets. cbn [fs set_calls].
  destruct (Fs.exists_ _ (fs w)); cbn [negb]; [|reflexivity].
  rewrite bind_eq.
  destruct (readExternalResourcesFromManifest _ _) as [[[]|e] w']; reflexivity.
Qed.

Lemma startServer_calls partialConfig w :
  match (startServer partialConfig w).1 with
  | Normal _ =>
      ∃ before,
        calls (startServer partialConfig w).2
        = calls w ++ before ++ [DevServerStart (partialConfig ∪ defaultConfig)] ∧
        Forall (λ c, is_start c = false) before
  | Throw _ =>
      ∃ added,
        calls (startServer partialConfig w).2 = calls w ++ added ∧
        Forall (λ c, is_start c = false) added
  end.
Proof.
  destruct ((partialConfig ∪ defaultConfig) !! "root") as [[v|ms]|] eqn:Hroot;
    [destruct v as [| | | |root| |]|..].
  5: {
    rewrite (startServer_root_eq _ _ _ Hroot). cbv zeta.
    set (r := Path.resolve (cwd w) root).
    destruct (Fs.exists_ r (fs w)) eqn:Hexists.
    - destruct (Fs.readdir r (fs w)) as [files|e] eqn:Hdir.
      + destruct (decide (manifestName ∈ files)) as [Hin|Hnone].
        * rewrite (manifest_found_eq r (set_calls (calls w ++ [FsExistsSync r]) w) files Hdir Hin). cbv zeta.
          set (mp := Path.join2 r manifestName).
          set (w2 := set_calls _ (set_calls (calls w ++ [FsExistsSync r]) w)).
          pose proof (read_frame mp w2) as (_ & Hcalls & _).
          set (w3 := ((readExternalResources mp ≫= discard) w2).2) in *.
          destruct (Fs.exists_ mp _); cbn [fst snd calls set_calls set_watchers];
            exists [FsExistsSync r; FsReaddirSync r; FsReadFileSync mp; FsWatch mp];
            (split; [|by repeat constructor]);
            rewrite Hcalls; subst w2; cbn [calls set_calls]; by rewrite <- !app_assoc.
        * rewrite (manifest_missing_eq r (set_calls (calls w ++ [FsExistsSync r]) w) files Hdir Hnone).
          cbn [fst snd calls set_calls].
          exists [FsExistsSync r; FsReaddirSync r;
                  ConsoleWarn ["Could not find a mod-manifest.json in the root directory"; r]].
          split; [|by repeat constructor]. by rewrite <- !app_assoc.
      + rewrite (manifest_unlistable_eq r (set_calls (calls w ++ [FsExistsSync r]) w) e Hdir). cbn [fst snd calls set_calls].
        exists [FsExistsSync r; FsReaddirSync r].
        split; [|by repeat constructor]. by rewrite <- !app_assoc.
    - cbn [fst snd calls set_calls]. exists [FsExistsSync r].
      split; [done|by repeat constructor]. }
  all: unfold startServer; cbv zeta; rewrite Hroot; cbn [fst snd];
    exists []; split; [by rewrite app_nil_r|constructor].
Qed.

(** X16. [devServer.start] is the last thing [startServer] does: when
    [startServer] returns, its last call is the one start of the server, with
    a configuration in which every option the caller gave wins over the
    default and every other default is kept; when it throws, the server has
    not been started. *)
Theorem server_started_last_or_never partialConfig w :
  match (startServer partialConfig w).1 with
  | Normal _ =>
      ∃ before config,
        calls (startServer partialConfig w).2 = calls w ++ before ++ [DevServerStart config] ∧
        Forall (λ c, is_start c = false) before ∧
        ∀ option,
          config !! option
          = match partialConfig !! option with
            | Some v => Some v
            | None => defaultConfig !! option
            end
  | Throw _ =>
      ∃ added,
        calls (startServer partialConfig w).2 = calls w ++ added ∧
        Forall (λ c, is_start c = false) added
  end.
Proof.
  pose proof (startServer_calls partialConfig w) as H.
  destruct ((startServer partialConfig w).1); [|exact H].
  destruct H as (before & Hcalls & Hbefore).
  exists before, (partialConfig ∪ defaultConfig). split_and!; [done..|].
  intros option. rewrite lookup_union.
  destruct (partialConfig !! option), (defaultConfig !! option); reflexivity.
Qed.

(** X17. Started on a root directory that lists the manifest, the server
    reads it, registers one watch on it and only then starts: these calls are
    made in this order, the manifest path is the one new watcher, and the
    declared resources are what that first read leaves. *)
Theorem manifest_read_watched_then_started partialConfig w root files :
  (partialConfig ∪ defaultConfig) !! "root" = Some (CValue (JString root)) →
  Fs.readdir (Path.resolve (cwd w) root) (fs w) = Normal files →
  manifestName ∈ files →
  Fs.exists_ (Path.join2 (Path.resolve (cwd w) root) manifestName) (fs w) = true →
  (startServer partialConfig w).1 = Normal () ∧
  calls (startServer partialConfig w).2
  = calls w ++
    [FsExistsSync (Path.resolve (cwd w) root);
     FsReaddirSync (Path.resolve (cwd w) root);
     FsReadFileSync (Path.join2 (Path.resolve (cwd w) root) manifestName);
     FsWatch (Path.join2 (Path.resolve (cwd w) root) manifestName);
     DevServerStart (partialConfig ∪ defaultConfig)] ∧
  watchers (startServer partialConfig w).2
  = watchers w ++ [Path.join2 (Path.resolve (cwd w) root) manifestName] ∧
  declaredExternalResourcesInManifest (startServer partialConfig w).2
  = declaredExternalResourcesInManifest
      (readExternalResources (Path.join2 (Path.resolve (cwd w) root) manifestName) w).2.
Proof.
  intros Hroot Hdir Hin Hmanifest.
  rewrite (startServer_root_eq _ _ _ Hroot). cbv zeta.
  set (r := Path.resolve (cwd w) root) in *.
  set (mp := Path.join2 r manifestName) in *.
  rewrite (readdir_exists _ _ _ Hdir).
  rewrite (manifest_found_eq r (set_calls (calls w ++ [FsExistsSync r]) w) files Hdir Hin).
  cbv zeta. fold mp. cbn [fs set_calls]. rewrite Hmanifest.
  set (w2 := set_calls _ (set_calls (calls w ++ [FsExistsSync r]) w)).
  pose proof (read_frame mp w2) as (_ & Hcalls & _ & _ & _ & Hwatchers & _).
  assert (declaredExternalResourcesInManifest ((readExternalResources mp ≫= discard) w2).2
          = declaredExternalResourcesInManifest (readExternalResources mp w).2) as Hdecl.
  { unfold mbind, M_bind. rewrite !readExternalResources_eq. cbv zeta.
    subst w2. cbn [fs set_calls].
    destruct (Fs.readFile mp (fs w)) as [content|e]; [|reflexivity].
    destruct (JSON.parse content) as [json|]; [|reflexivity].
    destruct (get_property json "externalResources"); reflexivity. }
  cbn [fst snd calls watchers declaredExternalResourcesInManifest set_calls set_watchers].
  rewrite Hcalls, Hwatchers, Hdecl. subst w2. cbn [calls watchers set_calls].
  split_and!; try reflexivity. by rewrite <- !app_assoc.
Qed.

Lemma manifest_read_watched_then_started_witness :
  (startServer project_config (loaded (project (manifest_with ("[" +:+ quoted "a" +:+ "]"))) "/")).1
  = Normal () ∧
  calls (startServer project_config
           (loaded (project (manifest_with ("[" +:+ quoted "a" +:+ "]"))) "/")).2
  = calls (loaded (project (manifest_with ("[" +:+ quoted "a" +:+ "]"))) "/") ++
    [FsExistsSync
       (Path.resolve (cwd (loaded (project (manifest_with ("[" +:+ quoted "a" +:+ "]"))) "/"))
          "./mod");
     FsReaddirSync
       (Path.resolve (cwd (loaded (project (manifest_with ("[" +:+ quoted "a" +:+ "]"))) "/"))
          "./mod");
     FsReadFileSync
       (Path.join2
          (Path.resolve (cwd (loaded (project (manifest_with ("[" +:+ quoted "a" +:+ "]"))) "/"))
             "./mod") manifestName);
     FsWatch
       (Path.join2
          (Path.resolve (cwd (loaded (project (manifest_with ("[" +:+ quoted "a" +:+ "]"))) "/"))
             "./mod") manifestName);
     DevServerStart (project_config ∪ defaultConfig)] ∧
  watchers (startServer project_config
              (loaded (project (manifest_with ("[" +:+ quoted "a" +:+ "]"))) "/")).2
  = watchers (loaded (project (manifest_with ("[" +:+ quoted "a" +:+ "]"))) "/") ++
    [Path.join2
       (Path.resolve (cwd (loaded (project (manifest_with ("[" +:+ quoted "a" +:+ "]"))) "/"))
          "./mod") manifestName] ∧
  declaredExternalResourcesInManifest
    (startServer project_config
       (loaded (project (manifest_with ("[" +:+ quoted "a" +:+ "]"))) "/")).2
  = declaredExternalResourcesInManifest
      (readExternalResources
         (Path.join2
            (Path.resolve (cwd (loaded (project (manifest_with ("[" +:+ quoted "a" +:+ "]"))) "/"))
               "./mod") manifestName)
         (loaded (project (manifest_with ("[" +:+ quoted "a" +:+ "]"))) "/")).2.
Proof.
  apply (manifest_read_watched_then_started project_config
           (loaded (project (manifest_with ("[" +:+ quoted "a" +:+ "]"))) "/")
           "./mod" ["mod-manifest.json"; "index.html"]); try (vm_compute; reflexivity).
  apply (bool_decide_unpack _). vm_compute. exact I.
Defined.

(** X18. A first read that fails does not stop the start-up: the function
    is [async], so the error only rejects a promise nobody holds.  The watch
    is registered and the server started as usual, with the declared
    resources untouched and the error left as an unhandled rejection. *)
Theorem failed_first_read_does_not_abort partialConfig w root files e :
  (partialConfig ∪ defaultConfig) !! "root" = Some (CValue (JString root)) →
  Fs.readdir (Path.resolve (cwd w) root) (fs w) = Normal files →
  manifestName ∈ files →
  Fs.exists_ (Path.join2 (Path.resolve (cwd w) root) manifestName) (fs w) = true →
  Fs.readFile (Path.join2 (Path.resolve (cwd w) root) manifestName) (fs w) = Throw e →
  (startServer partialConfig w).1 = Normal () ∧
  unhandledRejections (startServer partialConfig w).2 = unhandledRejections w ++ [e] ∧
  declaredExternalResourcesInManifest (startServer partialConfig w).2
  = declaredExternalResourcesInManifest w ∧
  watchers (startServer partialConfig w).2
  = watchers w ++ [Path.join2 (Path.resolve (cwd w) root) manifestName] ∧
  last (calls (startServer partialConfig w).2)
  = Some (DevServerStart (partialConfig ∪ defaultConfig)).
Proof.
  intros Hroot Hdir Hin Hmanifest Hread.
  rewrite (startServer_root_eq _ _ _ Hroot). cbv zeta.
  set (r := Path.resolve (cwd w) root) in *.
  set (mp := Path.join2 r manifestName) in *.
  rewrite (readdir_exists _ _ _ Hdir).
  rewrite (manifest_found_eq r (set_calls (calls w ++ [FsExistsSync r]) w) files Hdir Hin).
  cbv zeta. fold mp. cbn [fs set_calls]. rewrite Hmanifest.
  unfold mbind, M_bind. rewrite readExternalResources_eq. cbv zeta.
  cbn [fs set_calls]. rewrite Hread.
  cbn [discard modify fst snd calls watchers declaredExternalResourcesInManifest
       unhandledRejections set_calls set_watchers set_unhandledRejections].
  split_and!; try reflexivity. apply last_snoc.
Qed.

Lemma failed_first_read_does_not_abort_witness :
  (startServer project_config (loaded manifest_is_directory "/")).1 = Normal () ∧
  unhandledRejections (startServer project_config (loaded manifest_is_directory "/")).2
  = unhandledRejections (loaded manifest_is_directory "/")
    ++ [SystemError "EISDIR" project_manifest] ∧
  declaredExternalResourcesInManifest
    (startServer project_config (loaded manifest_is_directory "/")).2
  = declaredExternalResourcesInManifest (loaded manifest_is_directory "/") ∧
  watchers (startServer project_config (loaded manifest_is_directory "/")).2
  = watchers (loaded manifest_is_directory "/")
    ++ [Path.join2 (Path.resolve (cwd (loaded manifest_is_directory "/")) "./mod")
          manifestName] ∧
  last (calls (startServer project_config (loaded manifest_is_directory "/")).2)
  = Some (DevServerStart (project_config ∪ defaultConfig)).
Proof.
  apply (failed_first_read_does_not_abort project_config
           (loaded manifest_is_directory "/") "./mod" ["mod-manifest.json"]
           (SystemError "EISDIR" project_manifest)); try (vm_compute; reflexivity).
  apply (bool_decide_unpack _). vm_compute. exact I.
Defined.

(** X19. While the declared resources are a list of strings [rs] and all
    sources are acceptable in a header value, a GET from an origin not seen
    before is answered with a policy that already lists that origin, after the
    earlier ones and before the declared resources: the origin is recorded
    before the policy is built. *)
Theorem new_origin_listed_in_own_response req w origin (rs : list string) :
  req_method req = "GET" →
  req_headers req !! "origin" = Some origin →
  origin ≠ "null" →
  origin ∉ allowedOrigins w →
  declaredExternalResourcesInManifest w = JArray (JString <$> rs) →
  Forall (λ source, valid_header_value source = true)
         (allowedOrigins w ++ [origin] ++ rs) →
  getHeader "content-security-policy" (res (cacheRedirect req w).2)
  = Some (csp_prefix +:+ join " " (allowedOrigins w ++ [origin] ++ rs)).
Proof.
  intros Hget Ho Hnull Hnew Hdecl Hvalid.
  assert (allowedOrigins (cors_block req w) = allowedOrigins w ++ [origin]) as Horigins.
  { unfold cors_block. rewrite Ho, (bool_decide_false _ Hnull).
    cbn [allowedOrigins set_res set_allowedOrigins].
    unfold Set_add. by rewrite (bool_decide_false _ Hnew). }
  rewrite (cacheRedirect_get_array req w _ rs Hget Hdecl (element_strings_strings rs)).
  - unfold call_next, csp_headers, no_store.
    cbn [snd res allowedOrigins set_res set_nextCalls].
    headers. by rewrite Horigins, <- app_assoc.
  - by rewrite Horigins, <- app_assoc.
Qed.

Lemma new_origin_listed_in_own_response_witness :
  getHeader "content-security-policy"
    (res (cacheRedirect (mkRequest "GET" {["origin" := "http://localhost:8090"]}) serving_a).2)
  = Some (csp_prefix +:+
          join " " (allowedOrigins serving_a ++ ["http://localhost:8090"] ++ ["a"])).
Proof.
  apply (new_origin_listed_in_own_response
           (mkRequest "GET" {["origin" := "http://localhost:8090"]}) serving_a
           "http://localhost:8090" ["a"]); try (vm_compute; reflexivity).
  - discriminate.
  - apply (bool_decide_unpack _). vm_compute. exact I.
  - vm_compute. repeat constructor.
Defined.

(** ** The stand-alone run *)

(** X20. Run as a script, the module either starts the server, as its last
    call and with exactly the default configuration, and does not call
    [process.exit]; or it hands the value [startServer] threw to
    [console.warn] and calls [process.exit(1)], the server not started. *)
Theorem standalone_starts_or_exits_1 w :
  match exitCode (main w) with
  | None =>
      warned (main w) = [] ∧
      last (calls (world (main w))) = Some (DevServerStart defaultConfig)
  | Some code =>
      code = 1 ∧
      (∃ err, warned (main w) = [err] ∧ (startServer ∅ w).1 = Throw err) ∧
      ∃ added,
        calls (world (main w)) = calls w ++ added ∧
        Forall (λ c, is_start c = false) added
  end.
Proof.
  pose proof (startServer_calls ∅ w) as H. unfold main.
  destruct (startServer ∅ w) as [[[]|err] w']; cbn [fst snd exitCode warned world] in *.
  - destruct H as (before & Hcalls & _). split; [reflexivity|].
    rewrite Hcalls, (left_id_L ∅ (∪)), app_assoc. apply last_snoc.
  - split_and!; [reflexivity|by exists err|exact H].
Qed.

(** X21. Run as a script from a directory without [./test/test-files/],
    the module checks for that directory and nothing else, warns with the
    message naming its resolved path, and exits with code 1. *)
Theorem standalone_without_default_root w :
  Fs.exists_ (Path.resolve (cwd w) "./test/test-files/") (fs w) = false →
  main w
  = mkProcess
      (set_calls (calls w ++ [FsExistsSync (Path.resolve (cwd w) "./test/test-files/")]) w)
      [ThrownString
         ("The path '" +:+ Path.resolve (cwd w) "./test/test-files/" +:+ "' does not exist.")]
      (Some 1).
Proof.
  intros Hmissing. unfold main.
  rewrite (startServer_root_eq ∅ w "./test/test-files/") by reflexivity.
  cbv zeta. by rewrite Hmissing.
Qed.

Lemma standalone_without_default_root_witness :
  main (loaded bare_project "/")
  = mkProcess
      (set_calls
         (calls (loaded bare_project "/")
          ++ [FsExistsSync (Path.resolve (cwd (loaded bare_project "/")) "./test/test-files/")])
         (loaded bare_project "/"))
      [ThrownString
         ("The path '" +:+
          Path.resolve (cwd (loaded bare_project "/")) "./test/test-files/" +:+
          "' does not exist.")]
      (Some 1).
Proof.
  apply (standalone_without_default_root (loaded bare_project "/")).
  vm_compute. reflexivity.
Defined.
